(** * Template engine of the client-care letter generator

    A shallow embedding of [streamlit_app.py]: the placeholder resolver
    ([get_placeholder_map]), the markup renderer ([add_formatted_runs]),
    the precedent parser ([preprocess_precedent]) and the document
    assembler ([process_precedent_text]), followed by the properties of
    the engine that its specification states.

    Python strings are sequences of Unicode code points, and several of
    the operations used by the program ([str.strip], [str.splitlines])
    depend on code points above 127, so a string is a [list N] of code
    points.  Literals are written as UTF-8 text and decoded by [u]. *)

From Stdlib Require Import List NArith ZArith Bool Lia.
From Stdlib Require Import Strings.String Strings.Ascii Numbers.DecimalString.
Import ListNotations.

Set Implicit Arguments.

(** ** Python strings *)

Module PyStr.

Definition pystr := list N.

(** UTF-8 decoding of a literal: [more] continuation bytes are still
    expected for the code point accumulated in [acc]. *)
Fixpoint utf8_decode (more : nat) (acc : N) (s : string) : pystr :=
  match s with
  | EmptyString => []
  | String a s' =>
      let b := N_of_ascii a in
      match more with
      | O =>
          if (b <? 128)%N then b :: utf8_decode 0 0 s'
          else if (b <? 224)%N then utf8_decode 1 (b - 192) s'
          else if (b <? 240)%N then utf8_decode 2 (b - 224) s'
          else utf8_decode 3 (b - 240) s'
      | S k =>
          let acc' := (acc * 64 + (b - 128))%N in
          match k with
          | O => acc' :: utf8_decode 0 0 s'
          | S _ => utf8_decode k acc' s'
          end
      end
  end.

Definition u (s : string) : pystr := utf8_decode 0 0 s.

Fixpoint eqb (s t : pystr) : bool :=
  match s, t with
  | [], [] => true
  | c :: s', d :: t' => (c =? d)%N && eqb s' t'
  | _, _ => false
  end.

(** [s.startswith(p)] *)
Fixpoint startswith (s p : pystr) {struct p} : bool :=
  match p with
  | [] => true
  | d :: p' =>
      match s with
      | [] => false
      | c :: s' => (c =? d)%N && startswith s' p'
      end
  end.

(** [p in s] *)
Fixpoint contains (s p : pystr) : bool :=
  startswith s p ||
  match s with
  | [] => false
  | _ :: s' => contains s' p
  end.

(** [str.isspace] on one character: the code points CPython treats as
    whitespace. *)
Definition isspace (c : N) : bool :=
  ((9 <=? c) && (c <=? 13) || (28 <=? c) && (c <=? 32)
   || (c =? 133) || (c =? 160) || (c =? 5760)
   || (8192 <=? c) && (c <=? 8202)
   || (c =? 8232) || (c =? 8233) || (c =? 8239) || (c =? 8287)
   || (c =? 12288))%N.

Fixpoint lstrip (s : pystr) : pystr :=
  match s with
  | [] => []
  | c :: s' => if isspace c then lstrip s' else s
  end.

Definition rstrip (s : pystr) : pystr := rev (lstrip (rev s)).

(** [s.strip()] *)
Definition strip (s : pystr) : pystr := rstrip (lstrip s).

(** The scan of [s.replace(old, new)] for a non-empty [old]: [skip] counts
    the characters of a matched occurrence that are still to be passed
    over. *)
Fixpoint replace_from (old new : pystr) (skip : nat) (s : pystr) : pystr :=
  match s with
  | [] => []
  | c :: s' =>
      match skip with
      | S k => replace_from old new k s'
      | O =>
          if startswith s old
          then new ++ replace_from old new (List.length old - 1) s'
          else c :: replace_from old new 0 s'
      end
  end.

(** [s.replace(old, new)]: every non-overlapping occurrence, from the
    left; an empty [old] matches before every character and at the end. *)
Definition replace (s old new : pystr) : pystr :=
  match old with
  | [] => new ++ flat_map (fun c => c :: new) s
  | _ :: _ => replace_from old new 0 s
  end.

(** [s.split('\n')]; [cur] is the piece being read, reversed. *)
Fixpoint split_nl_from (cur : pystr) (s : pystr) : list pystr :=
  match s with
  | [] => [rev cur]
  | c :: s' =>
      if (c =? 10)%N then rev cur :: split_nl_from [] s'
      else split_nl_from (c :: cur) s'
  end.

Definition split_nl (s : pystr) : list pystr := split_nl_from [] s.

(** Line boundaries of [str.splitlines]. *)
Definition is_linebreak (c : N) : bool :=
  ((10 <=? c) && (c <=? 13) || (28 <=? c) && (c <=? 30)
   || (c =? 133) || (c =? 8232) || (c =? 8233))%N.

(** [s.splitlines()]: a carriage return followed by a line feed is one
    boundary, and no empty last line is produced. *)
Fixpoint splitlines_from (cur : pystr) (s : pystr) : list pystr :=
  match s with
  | [] => match cur with [] => [] | _ :: _ => [rev cur] end
  | c :: s' =>
      if is_linebreak c then
        match s' with
        | d :: s'' =>
            if ((c =? 13) && (d =? 10))%N
            then rev cur :: splitlines_from [] s''
            else rev cur :: splitlines_from [] s'
        | [] => [rev cur]
        end
      else splitlines_from (c :: cur) s'
  end.

Definition splitlines (s : pystr) : list pystr := splitlines_from [] s.

(** [str(n)] for an integer. *)
Definition of_Z (z : Z) : pystr :=
  map N_of_ascii (list_ascii_of_string (NilZero.string_of_int (Z.to_int z))).

End PyStr.

Import PyStr.

(** ** Python values and dictionaries *)

(** The values that the engine reads out of its dictionaries. *)
Inductive pyval :=
| PNone
| PBool (b : bool)
| PInt (z : Z)
| PStr (s : pystr).

(** [str(v)] *)
Definition str (v : pyval) : pystr :=
  match v with
  | PNone => u "None"
  | PBool true => u "True"
  | PBool false => u "False"
  | PInt z => of_Z z
  | PStr s => s
  end.

(** [v == w]; a boolean compares as the integer 0 or 1. *)
Definition py_eq (v w : pyval) : bool :=
  match v, w with
  | PNone, PNone => true
  | PBool a, PBool b => Bool.eqb a b
  | PBool a, PInt z | PInt z, PBool a => (z =? (if a then 1 else 0))%Z
  | PInt y, PInt z => (y =? z)%Z
  | PStr s, PStr t => PyStr.eqb s t
  | _, _ => false
  end.

Definition is_str (v : pyval) : bool :=
  match v with PStr _ => true | _ => false end.

(** A [dict] keeps its keys in insertion order, and the order is observable
    ([add_formatted_runs] iterates over [items()]), so a dictionary is the
    list of its items, without repeated keys. *)
Module Dict.

Section WithValues.
Variable V : Type.

Definition dict := list (pystr * V).

(** [d.get(k)] *)
Fixpoint get (d : dict) (k : pystr) : option V :=
  match d with
  | [] => None
  | (k', v) :: d' => if PyStr.eqb k' k then Some v else get d' k
  end.

(** [d.get(k, default)] *)
Definition get_or (d : dict) (k : pystr) (default : V) : V :=
  match get d k with
  | Some v => v
  | None => default
  end.

(** [d[k] = v]: a key that is present keeps its position. *)
Fixpoint set (d : dict) (k : pystr) (v : V) : dict :=
  match d with
  | [] => [(k, v)]
  | (k', v') :: d' =>
      if PyStr.eqb k' k then (k', v) :: d' else (k', v') :: set d' k v
  end.

(** [d.update(items)] *)
Definition update (d : dict) (items : list (pystr * V)) : dict :=
  fold_left (fun acc kv => set acc (fst kv) (snd kv)) items d.

(** A dictionary display or comprehension over [items]. *)
Definition of_items (items : list (pystr * V)) : dict := update [] items.

Definition keys (d : dict) : list pystr := map fst d.

Fixpoint distinct (l : list pystr) : bool :=
  match l with
  | [] => true
  | k :: l' => negb (existsb (PyStr.eqb k) l') && distinct l'
  end.

(** The invariant of a dictionary: no key twice. *)
Definition wf (d : dict) : Prop := distinct (keys d) = true.

End WithValues.

End Dict.

Import Dict.

(** ** Placeholder resolver *)

Definition load_firm_details : dict pyval :=
  of_items
    [ (u "name", PStr (u "Ramsdens Solicitors LLP"));
      (u "short_name", PStr (u "Ramsdens"));
      (u "person_responsible_name", PStr (u "Paul Pinder"));
      (u "person_responsible_title", PStr (u "Senior Associate"));
      (u "supervisor_name", PStr (u "Nick Armitage"));
      (u "supervisor_title", PStr (u "Partner"));
      (u "person_responsible_phone", PStr (u "01484 821558"));
      (u "person_responsible_mobile", PStr (u "07923 250815"));
      (u "person_responsible_email", PStr (u "paul.pinder@ramsdens.co.uk"));
      (u "assistant_name", PStr (u "Reece Collier"));
      (u "supervisor_contact_for_complaints",
        PStr (u "Nick Armitage on 01484 507121"));
      (u "bank_name", PStr (u "Barclays Bank PLC"));
      (u "bank_address", PStr (u "17 Market Place, Huddersfield"));
      (u "account_name", PStr (u "Ramsdens Solicitors LLP Client Account"));
      (u "sort_code", PStr (u "20-43-12"));
      (u "account_number", PStr (u "03909026"));
      (u "marketing_email", PStr (u "dataprotection@ramsdens.co.uk"));
      (u "marketing_address",
        PStr (u "Ramsdens Solicitors LLP, Oakley House, 1 Hungerford Road, Edgerton, Huddersfield, HD3 3AL")) ].

(** An entry of the [placeholders] display that is taken from the inputs
    as it is: [k: app_inputs.get(k, default)]. *)
Definition raw_field (app_inputs : dict pyval) (k : string) (default : pyval)
  : pystr * pyval :=
  (u k, get_or app_inputs (u k) default).

(** An entry that goes through [str]: [k: str(app_inputs.get(from, ''))]. *)
Definition str_field (app_inputs : dict pyval) (k from : string)
  : pystr * pyval :=
  (u k, PStr (str (get_or app_inputs (u from) (PStr [])))).

(** The entries of the [placeholders] display, in the order of the source. *)
Definition placeholder_items (app_inputs : dict pyval)
  : list (pystr * pyval) :=
  [ raw_field app_inputs "qu1_dispute_nature" (PStr []);
    raw_field app_inputs "qu2_initial_steps" (PStr []);
    raw_field app_inputs "qu3_timescales" (PStr []);
    raw_field app_inputs "qu4_initial_costs_with_vat" (PStr (u "XX,XXX"));
    str_field app_inputs "our_ref" "our_ref";
    str_field app_inputs "your_ref" "your_ref";
    str_field app_inputs "letter_date" "letter_date";
    str_field app_inputs "client_name_input" "client_name_input";
    str_field app_inputs "client_salutation" "client_salutation";
    str_field app_inputs "client_address_line1" "client_address_line1";
    str_field app_inputs "client_address_line2_conditional"
      "client_address_line2_conditional";
    str_field app_inputs "client_postcode" "client_postcode";
    str_field app_inputs "matter_number" "our_ref";
    str_field app_inputs "name" "name" ].

Definition get_placeholder_map (app_inputs firm_details : dict pyval)
  : dict pyval :=
  let placeholders := of_items (placeholder_items app_inputs) in
  let firm_placeholders :=
    of_items (map (fun kv => (fst kv, PStr (str (snd kv)))) firm_details) in
  update placeholders firm_placeholders.

(** ** Markup renderer *)

(** A length as the program writes it: [Pt(n)], or [Cm(x)] with [x] in
    hundredths of a centimetre (the program uses 0, 1.0, 1.25 and 1.5). *)
Inductive length :=
| Pt (points : Z)
| Cm (hundredths : Z).

(** A call of [paragraph.add_run] as the program makes it: [Run] holds the
    text that is handed to the library and the character formatting set on
    the run, [Break] is the call [add_run().add_break()].  What the library
    does with the text it is handed (it stores a tab or a carriage return
    as an element of its own, and refuses a character that XML does not
    allow) is not code of the program and is not modelled. *)
Inductive run :=
| Run (text : pystr) (bold underline : bool) (font_name : pystr) (font_size : length)
| Break.

Definition markers : list pystr :=
  [u "<bd>"; u "</bd>"; u "<ins>"; u "</ins>"].

(** [re.split(r'(<bd>|</bd>|<ins>|</ins>)', s)]: the text between the
    markers and, because of the group, the markers themselves. *)
Fixpoint re_split_from (skip : nat) (cur : pystr) (s : pystr) : list pystr :=
  match s with
  | [] => [rev cur]
  | c :: s' =>
      match skip with
      | S k => re_split_from k cur s'
      | O =>
          match find (startswith s) markers with
          | Some m => rev cur :: m :: re_split_from (List.length m - 1) [] s'
          | None => re_split_from 0 (c :: cur) s'
          end
      end
  end.

Definition re_split (s : pystr) : list pystr := re_split_from 0 [] s.

(** The loop over [placeholder_map.items()]. *)
Definition substitute (placeholder_map : dict pyval) (text_line : pystr)
  : pystr :=
  fold_left
    (fun processed_text kv =>
       replace processed_text (u "{" ++ fst kv ++ u "}") (str (snd kv)))
    placeholder_map text_line.

(** The loop over [enumerate(part.split('\n'))], from index [i]. *)
Fixpoint line_runs (i : nat) (line_parts : list pystr)
    (is_bold is_underline : bool) : list run :=
  match line_parts with
  | [] => []
  | line_part :: rest =>
      (if (0 <? i)%nat then [Break] else [])
      ++ Run line_part is_bold is_underline (u "Arial") (Pt 11)
      :: line_runs (S i) rest is_bold is_underline
  end.

(** The loop over [parts], with the two toggles. *)
Fixpoint render_parts (parts : list pystr) (is_bold is_underline : bool)
  : list run :=
  match parts with
  | [] => []
  | part :: rest =>
      match part with
      | [] => render_parts rest is_bold is_underline
      | _ :: _ =>
          if PyStr.eqb part (u "<bd>") then render_parts rest true is_underline
          else if PyStr.eqb part (u "</bd>") then render_parts rest false is_underline
          else if PyStr.eqb part (u "<ins>") then render_parts rest is_bold true
          else if PyStr.eqb part (u "</ins>") then render_parts rest is_bold false
          else line_runs 0 (split_nl part) is_bold is_underline
               ++ render_parts rest is_bold is_underline
      end
  end.

(** The runs that [add_formatted_runs] appends to its paragraph. *)
Definition formatted_runs (text_line : pystr) (placeholder_map : dict pyval)
  : list run :=
  render_parts (re_split (substitute placeholder_map text_line)) false false.

(** ** Exceptions *)

(** The exceptions that the program's own operations raise: a key that is
    missing and an index out of range.  Those of the document library are
    not among them. *)
Inductive exn :=
| KeyError (key : pystr)
| IndexError.

Inductive result (A : Type) :=
| Ok (a : A)
| Raise (e : exn).

Arguments Ok {A} a.
Arguments Raise {A} e.

Definition bind {A B : Type} (r : result A) (f : A -> result B) : result B :=
  match r with
  | Ok a => f a
  | Raise e => Raise e
  end.

Notation "x <- r ;; k" := (bind r (fun x => k))
  (at level 61, r at next level, right associativity).

(** [d[k]] *)
Definition index {V : Type} (d : dict V) (k : pystr) : result V :=
  match get d k with
  | Some v => Ok v
  | None => Raise (KeyError k)
  end.

(** ** Precedent parser *)

Inductive list_kind := Numbered | Letter | Roman.

Inductive element_type :=
| blank_line | heading | fee_table
| numbered | letter | roman
| general_paragraph.

(** The name of a list type, used as the type of an element. *)
Definition type_of_list (l : list_kind) : element_type :=
  match l with
  | Numbered => numbered
  | Letter => letter
  | Roman => roman
  end.

Definition list_kind_eqb (a b : list_kind) : bool :=
  match a, b with
  | Numbered, Numbered | Letter, Letter | Roman, Roman => true
  | _, _ => false
  end.

Record element := {
  type : element_type;
  content_lines : list pystr;
  block_tag : option pystr;
  list_type : option list_kind
}.

Definition tag_names : list pystr :=
  [u "indiv"; u "corp"; u "a1"; u "a2"; u "a3"; u "a4";
   u "u1"; u "u2"; u "u3"; u "u4"].

(** [re.match] of [line] against [^ opening (indiv|corp|a[1-4]|u[1-4]) \] $],
    giving group 1; [$] also matches before a final newline. *)
Definition match_tag (opening : pystr) (line : pystr) : option pystr :=
  find (fun g => PyStr.eqb line (opening ++ g ++ u "]")
                 || PyStr.eqb line (opening ++ g ++ u "]" ++ [10%N]))
       tag_names.

Definition determine_list_type (line : pystr) : option list_kind :=
  let line := strip line in
  if startswith line (u "<a>") then Some Letter
  else if startswith line (u "<i>") then Some Roman
  else if startswith line (u "1.") then Some Numbered
  else None.

(** [flush_block], as a function of the list it appends to. *)
Definition flush_block (logical_elements : list element)
    (block_tag : option pystr) (block_lines : list pystr)
    (list_type : option list_kind) : list element :=
  match block_lines with
  | [] => logical_elements
  | first :: _ =>
      let content := strip first in
      match content with
      | [] => logical_elements ++ [Build_element blank_line [] block_tag None]
      | _ :: _ =>
          if contains content (u "<ins>") then
            logical_elements ++ [Build_element heading block_lines block_tag None]
          else if contains content (u "[FEE_TABLE_PLACEHOLDER]") then
            logical_elements ++ [Build_element fee_table block_lines block_tag None]
          else
            let element_type :=
              match list_type with
              | Some l => type_of_list l
              | None => general_paragraph
              end in
            logical_elements
            ++ [Build_element element_type block_lines block_tag list_type]
      end
  end.

(** The variables of the scanning loop. *)
Record parser_state := {
  logical_elements : list element;
  current_block_tag : option pystr;
  block_lines : list pystr;
  current_list_type : option list_kind
}.

Definition initial_state : parser_state :=
  Build_parser_state [] None [] None.

Definition nonempty {A : Type} (l : list A) : bool :=
  match l with [] => false | _ :: _ => true end.

Definition is_none {A : Type} (o : option A) : bool :=
  match o with None => true | Some _ => false end.

(** [current_block_tag == tag] *)
Definition tag_is (current : option pystr) (tag : pystr) : bool :=
  match current with
  | Some t => PyStr.eqb t tag
  | None => false
  end.

(** [new_list_type != current_list_type] *)
Definition differs (new : list_kind) (current : option list_kind) : bool :=
  match current with
  | Some l => negb (list_kind_eqb new l)
  | None => true
  end.

(** One turn of the [while] loop, on the line [raw = lines[i]]. *)
Definition step (st : parser_state) (raw : pystr) : parser_state :=
  let line := strip raw in
  let els := logical_elements st in
  let tag := current_block_tag st in
  let buf := block_lines st in
  let lt := current_list_type st in
  match match_tag (u "[") line with
  | Some opened =>
      if nonempty buf && is_none tag
      then Build_parser_state (flush_block els None buf lt) (Some opened) [] lt
      else Build_parser_state els (Some opened) buf lt
  | None =>
      match match_tag (u "[/") line with
      | Some closed =>
          if nonempty buf && tag_is tag closed
          then Build_parser_state (flush_block els tag buf lt) None [] None
          else Build_parser_state els None buf None
      | None =>
          match line with
          | _ :: _ =>
              let new_list_type := determine_list_type line in
              let changes :=
                match new_list_type with
                | Some l => differs l lt
                | None => false
                end in
              let flushes := changes && nonempty buf in
              Build_parser_state
                (if flushes then flush_block els tag buf lt else els)
                tag
                ((if flushes then [] else buf) ++ [raw])
                (if changes then new_list_type else lt)
          | [] =>
              let els' :=
                if nonempty buf then flush_block els tag buf lt else els in
              Build_parser_state
                (els' ++ [Build_element blank_line [] tag None]) tag [] lt
          end
      end
  end.

Definition preprocess_precedent (precedent_content : pystr)
    (app_inputs : dict pyval) : list element :=
  let lines := splitlines precedent_content in
  let st := fold_left step lines initial_state in
  if nonempty (block_lines st)
  then flush_block (logical_elements st) (current_block_tag st)
         (block_lines st) (current_list_type st)
  else logical_elements st.

(** ** Document assembler *)

Inductive alignment := JUSTIFY.

(** A paragraph of the output document: its runs, its numbering properties
    ([ilvl] and [numId]) and its paragraph format. *)
Record paragraph := {
  runs : list run;
  numPr : option (Z * Z);
  p_alignment : option alignment;
  space_before : option length;
  space_after : option length;
  left_indent : option length
}.

(** [doc.add_paragraph()] *)
Definition add_paragraph : paragraph :=
  Build_paragraph [] None None None None None.

(** [add_formatted_runs(paragraph, text_line, placeholder_map)] *)
Definition add_formatted_runs (p : paragraph) (text_line : pystr)
    (placeholder_map : dict pyval) : paragraph :=
  Build_paragraph (runs p ++ formatted_runs text_line placeholder_map)
    (numPr p) (p_alignment p) (space_before p) (space_after p) (left_indent p).

(** What the body of the document holds: paragraphs, and tables given by
    their style and the text of their cells, row by row. *)
Inductive block :=
| Paragraph (p : paragraph)
| Table (style : pystr) (rows : list (list pystr)).

(** One [w:lvl] of the numbering definition. *)
Record level := {
  ilvl : Z;
  numFmt : pystr;
  lvlText : pystr;
  start_val : Z;
  ind_left : length;
  ind_hanging : length
}.

Definition create_level (ilvl : Z) (numFmt lvlText : string)
    (left_indent_cm hanging_cm : Z) (start_val : Z) : level :=
  Build_level ilvl (u numFmt) (u lvlText) start_val
    (Cm left_indent_cm) (Cm hanging_cm).

Definition SUB_LIST_TEXT_START_CM : Z := 100.
Definition SUB_ROMAN_TEXT_START_CM : Z := 150.
Definition INDENT_FOR_IND_TAG_CM : Z := 125.

Definition abstract_num_id : Z := 10.
Definition num_instance_id : Z := 1.

(** What the program appends to the numbering part: one [w:abstractNum]
    with three levels, and one [w:num] that refers to it. *)
Record numbering := {
  abstractNumId : Z;
  levels : list level;
  numId : Z;
  num_abstractNumId : Z
}.

Definition numbering_scheme : numbering :=
  Build_numbering abstract_num_id
    [ create_level 0 "decimal" "%1." 0 100 1;
      create_level 1 "lowerLetter" "(%2)" SUB_LIST_TEXT_START_CM 100 1;
      create_level 2 "lowerRoman" "(%3)" SUB_ROMAN_TEXT_START_CM 100 1 ]
    num_instance_id abstract_num_id.

(** The document as the program makes it: the font set on the Normal
    style, the definitions appended to the numbering part (those that the
    template of the library already holds are not modelled), and the
    blocks added to the body. *)
Record document := {
  normal_font : pystr * length;
  doc_numbering : numbering;
  body : list block
}.

Definition tag_map : dict (bool * pystr) :=
  of_items
    [ (u "a1", (true, u "Small Claims Track")); (u "a2", (true, u "Fast Track"));
      (u "a3", (true, u "Intermediate Track")); (u "a4", (true, u "Multi Track"));
      (u "u1", (false, u "Small Claims Track")); (u "u2", (false, u "Fast Track"));
      (u "u3", (false, u "Intermediate Track")); (u "u4", (false, u "Multi Track")) ].

Definition should_render_track_block (tag : pystr)
    (claim_assigned selected_track : pyval) : bool :=
  match get tag_map tag with
  | None => false
  | Some expected =>
      py_eq claim_assigned (PBool (fst expected))
      && py_eq selected_track (PStr (snd expected))
  end.

(** The value of [render_this_element] for an element. *)
Definition render_this_element (app_inputs : dict pyval) (e : element)
  : result bool :=
  match block_tag e with
  | None | Some [] => Ok true
  | Some tag =>
      if PyStr.eqb tag (u "indiv") then
        client_type <- index app_inputs (u "client_type") ;;
        Ok (py_eq client_type (PStr (u "Individual")))
      else if PyStr.eqb tag (u "corp") then
        client_type <- index app_inputs (u "client_type") ;;
        Ok (py_eq client_type (PStr (u "Corporate")))
      else
        claim_assigned <- index app_inputs (u "claim_assigned") ;;
        selected_track <- index app_inputs (u "selected_track") ;;
        Ok (should_render_track_block tag claim_assigned selected_track)
  end.

(** The paragraph that [add_list_item(level, text)] adds. *)
Definition add_list_item (placeholder_map : dict pyval) (level : Z)
    (text : pystr) : paragraph :=
  let p := Build_paragraph [] (Some (level, num_instance_id)) None None None None in
  let cleaned_content :=
    strip (replace (replace text (u "<a>") []) (u "<i>") []) in
  let p := add_formatted_runs p cleaned_content placeholder_map in
  Build_paragraph (runs p) (numPr p) (Some JUSTIFY) (space_before p)
    (Some (Pt 6)) (left_indent p).

(** [doc.add_table(rows, cols)]: empty cells. *)
Definition add_table (rows cols : nat) : list (list pystr) :=
  repeat (repeat [] cols) rows.

(** [l[i] = x] *)
Fixpoint assign {A : Type} (l : list A) (i : nat) (x : A) : result (list A) :=
  match l, i with
  | [], _ => Raise IndexError
  | _ :: l', O => Ok (x :: l')
  | y :: l', S j => l'' <- assign l' j x ;; Ok (y :: l'')
  end.

(** [table.rows[i].cells[j].text = text] *)
Definition set_cell (table : list (list pystr)) (i j : nat) (text : pystr)
  : result (list (list pystr)) :=
  match nth_error table i with
  | None => Raise IndexError
  | Some row => row' <- assign row j text ;; assign table i row'
  end.

(** The loop over [enumerate(fee_data)], from index [i]. *)
Fixpoint fill_table (table : list (list pystr)) (i : nat)
    (fee_data : list (pystr * pystr)) : result (list (list pystr)) :=
  match fee_data with
  | [] => Ok table
  | (grade, rate) :: rest =>
      table <- set_cell table i 0 grade ;;
      table <- set_cell table i 1 rate ;;
      fill_table table (S i) rest
  end.

(** The blocks that one visible element adds to the document. *)
Definition render_element (app_inputs placeholder_map : dict pyval)
    (e : element) : result (list block) :=
  let content :=
    match content_lines e with
    | first :: _ => first
    | [] => []
    end in
  match type e with
  | blank_line => Ok []
  | fee_table =>
      let table := add_table 5 2 in
      hourly_rate <- index app_inputs (u "hourly_rate") ;;
      let fee_data :=
        [ (u "Grade A", u "£450 (Partners, Solicitors over 8 years)");
          (u "Grade B", u "£350 (Solicitors/Legal Executives over 4 years)");
          (u "Grade C",
            u "£" ++ str hourly_rate
            ++ u " (Solicitors/Legal Executives under 4 years)");
          (u "Grade D", u "£250 (Trainees, Paralegals)");
          (u "Grade E", u "£150 (Support Staff)") ] in
      table <- fill_table table 0 fee_data ;;
      Ok [ Table (u "Table Grid") table;
           Paragraph (Build_paragraph [] None None None (Some (Pt 12)) None) ]
  | heading =>
      let p := add_formatted_runs add_paragraph content placeholder_map in
      Ok [ Paragraph (Build_paragraph (runs p) (numPr p) (p_alignment p)
                        (Some (Pt 12)) (Some (Pt 6)) (left_indent p)) ]
  | numbered => Ok [ Paragraph (add_list_item placeholder_map 0 content) ]
  | letter => Ok [ Paragraph (add_list_item placeholder_map 1 content) ]
  | roman => Ok [ Paragraph (add_list_item placeholder_map 2 content) ]
  | general_paragraph =>
      let cleaned_content := strip (replace content (u "[ind]") []) in
      let indent :=
        if contains content (u "[ind]")
        then Some (Cm INDENT_FOR_IND_TAG_CM) else None in
      let p := Build_paragraph [] None None None None indent in
      let p := add_formatted_runs p cleaned_content placeholder_map in
      Ok [ Paragraph (Build_paragraph (runs p) (numPr p) (Some JUSTIFY)
                        (space_before p) (Some (Pt 12)) (left_indent p)) ]
  end.

(** The loop over [logical_elements]: an element that is not to be rendered
    is passed over, and the first exception ends the run. *)
Fixpoint process_elements (app_inputs placeholder_map : dict pyval)
    (elements : list element) : result (list block) :=
  match elements with
  | [] => Ok []
  | e :: rest =>
      visible <- render_this_element app_inputs e ;;
      if negb visible
      then process_elements app_inputs placeholder_map rest
      else
        added <- render_element app_inputs placeholder_map e ;;
        later <- process_elements app_inputs placeholder_map rest ;;
        Ok (added ++ later)
  end.

Definition process_precedent_text (precedent_content : pystr)
    (app_inputs placeholder_map : dict pyval) : result document :=
  let logical_elements := preprocess_precedent precedent_content app_inputs in
  body <- process_elements app_inputs placeholder_map logical_elements ;;
  Ok (Build_document (u "Arial", Pt 11) numbering_scheme body).

(** ** Input sanitising *)

(** [html.escape(s)], quotes included: the five replacements, in the order
    in which the library makes them. *)
Definition html_escape (s : pystr) : pystr :=
  let s := replace s (u "&") (u "&amp;") in
  let s := replace s (u "<") (u "&lt;") in
  let s := replace s (u ">") (u "&gt;") in
  let s := replace s [34%N] (u "&quot;") in
  replace s (u "'") (u "&#x27;").

(** [sanitize_input(text)]: a value that is not a string goes through
    [str] first. *)
Definition sanitize_input (text : pyval) : pystr := html_escape (str text).

(** ** Vocabulary of the properties *)

(** The token [{placeholder}] that the substitution loop looks for. *)
Definition token (placeholder : pystr) : pystr :=
  u "{" ++ placeholder ++ u "}".

(** No token of the map occurs in the text. *)
Definition token_free (placeholder_map : dict pyval) (text : pystr) : bool :=
  forallb (fun kv => negb (contains text (token (fst kv)))) placeholder_map.

(** The sentence of the specification: the token of a key of the map is
    replaced by the text of its value, which is not expanded again. *)
Definition values_never_reexpanded : Prop :=
  forall (pm : dict pyval) (k : pystr) (v : pyval),
    get pm k = Some v -> substitute pm (token k) = str v.

(** A part of the split line that is text: not empty and not a marker. *)
Definition is_text (part : pystr) : bool :=
  nonempty part && negb (existsb (PyStr.eqb part) markers).

(** The state of the two toggles once the parts [parts] have been passed,
    starting from [(is_bold, is_underline)]. *)
Fixpoint toggles_after (parts : list pystr) (toggles : bool * bool)
  : bool * bool :=
  match parts with
  | [] => toggles
  | part :: rest =>
      toggles_after rest
        (if PyStr.eqb part (u "<bd>") then (true, snd toggles)
         else if PyStr.eqb part (u "</bd>") then (false, snd toggles)
         else if PyStr.eqb part (u "<ins>") then (fst toggles, true)
         else if PyStr.eqb part (u "</ins>") then (fst toggles, false)
         else toggles)
  end.

(** A run carries the formatting [(is_bold, is_underline)], in the fixed
    font; the break run has no formatting of its own. *)
Definition carries (is_bold is_underline : bool) (r : run) : Prop :=
  match r with
  | Run _ b ul name size =>
      b = is_bold /\ ul = is_underline /\ name = u "Arial" /\ size = Pt 11
  | Break => True
  end.

(** The names of the placeholders that the resolver takes from the inputs
    as they are, with their defaults, and of those it passes through [str],
    with the input key each is read from. *)
Definition raw_fields : list (pystr * pyval) :=
  [ (u "qu1_dispute_nature", PStr []);
    (u "qu2_initial_steps", PStr []);
    (u "qu3_timescales", PStr []);
    (u "qu4_initial_costs_with_vat", PStr (u "XX,XXX")) ].

Definition str_fields : list (pystr * pystr) :=
  [ (u "our_ref", u "our_ref");
    (u "your_ref", u "your_ref");
    (u "letter_date", u "letter_date");
    (u "client_name_input", u "client_name_input");
    (u "client_salutation", u "client_salutation");
    (u "client_address_line1", u "client_address_line1");
    (u "client_address_line2_conditional", u "client_address_line2_conditional");
    (u "client_postcode", u "client_postcode");
    (u "matter_number", u "our_ref");
    (u "name", u "name") ].

(** The four inputs that are not passed through [str] are strings, where
    they are given. *)
Definition raw_inputs_are_str (app_inputs : dict pyval) : bool :=
  forallb
    (fun kd =>
       match get app_inputs (fst kd) with
       | Some v => is_str v
       | None => true
       end)
    raw_fields.

(** A text that holds no line boundary: one line for [splitlines]. *)
Definition one_line (s : pystr) : bool :=
  forallb (fun c => negb (is_linebreak c)) s.

(** The effect of a close-tag line as the specification words it: the
    buffered element is flushed when the tag is the open one, the block tag
    is cleared, and nothing else changes. *)
Definition close_tag_spec (st : parser_state) (closed : pystr)
  : parser_state :=
  if nonempty (block_lines st) && tag_is (current_block_tag st) closed
  then Build_parser_state
         (flush_block (logical_elements st) (current_block_tag st)
            (block_lines st) (current_list_type st))
         None [] (current_list_type st)
  else Build_parser_state (logical_elements st) None (block_lines st)
         (current_list_type st).

(** The text run of the fixed font. *)
Definition text_run (text : string) (is_bold is_underline : bool) : run :=
  Run (u text) is_bold is_underline (u "Arial") (Pt 11).

(** *** Vocabulary of the further properties *)

(** The character [c] occurs in [s]. *)
Definition has (c : N) (s : pystr) : bool := existsb (N.eqb c) s.

Definition is_marker (part : pystr) : bool :=
  existsb (PyStr.eqb part) markers.

(** The text that a run shows; the break run shows a line feed. *)
Definition run_text (r : run) : pystr :=
  match r with
  | Run text _ _ _ _ => text
  | Break => [10%N]
  end.

(** The text of a list of runs. *)
Definition runs_text (rs : list run) : pystr :=
  List.concat (map run_text rs).

(** A line of the template that is neither a tag line nor blank: a line
    that the parser appends to its buffer. *)
Definition is_content_line (raw : pystr) : bool :=
  let line := strip raw in
  is_none (match_tag (u "[") line) && is_none (match_tag (u "[/") line)
  && nonempty line.

(** A line that is empty once stripped. *)
Definition is_blank (raw : pystr) : bool := negb (nonempty (strip raw)).

(** Every buffered line has text. *)
Definition buffer_ok (buf : list pystr) : bool :=
  forallb (fun l => nonempty (strip l)) buf.

(** No block, or one of the ten block names. *)
Definition tag_ok (tag : option pystr) : bool :=
  match tag with
  | None => true
  | Some t => existsb (PyStr.eqb t) tag_names
  end.

(** The first line of an element, stripped, as [flush_block] reads it. *)
Definition first_content (e : element) : pystr :=
  match content_lines e with
  | first :: _ => strip first
  | [] => []
  end.

Definition list_type_is (e : element) (l : list_kind) : bool :=
  match list_type e with
  | Some l' => list_kind_eqb l' l
  | None => false
  end.

(** The first line has text and holds neither the underline marker nor
    the fee-table sentinel. *)
Definition plain_first (e : element) : bool :=
  nonempty (first_content e)
  && negb (contains (first_content e) (u "<ins>"))
  && negb (contains (first_content e) (u "[FEE_TABLE_PLACEHOLDER]")).

(** What holds of an element that [flush_block] or the blank-line branch
    has built. *)
Definition element_ok (e : element) : bool :=
  match type e with
  | blank_line => negb (nonempty (content_lines e)) && is_none (list_type e)
  | heading =>
      contains (first_content e) (u "<ins>") && is_none (list_type e)
  | fee_table =>
      negb (contains (first_content e) (u "<ins>"))
      && contains (first_content e) (u "[FEE_TABLE_PLACEHOLDER]")
      && is_none (list_type e)
  | numbered => plain_first e && list_type_is e Numbered
  | letter => plain_first e && list_type_is e Letter
  | roman => plain_first e && list_type_is e Roman
  | general_paragraph => plain_first e && is_none (list_type e)
  end.

Definition is_blank_element (e : element) : bool :=
  match type e with
  | blank_line => true
  | _ => false
  end.

(** The names of the fourteen per-request fields of the resolver. *)
Definition field_names : list pystr :=
  map fst raw_fields ++ map fst str_fields.

Definition track_tags : list pystr :=
  [u "a1"; u "a2"; u "a3"; u "a4"; u "u1"; u "u2"; u "u3"; u "u4"].

Definition track_names : list pystr :=
  [ u "Small Claims Track"; u "Fast Track"; u "Intermediate Track";
    u "Multi Track" ].

(** A line that leaves the current list type as it is: not a close tag,
    and without a list marker at its start. *)
Definition keeps_list_type (raw : pystr) : bool :=
  is_none (match_tag (u "[/") (strip raw))
  && is_none (determine_list_type (strip raw)).

(** The run is not bold; the run is not underlined. *)
Definition not_bold (r : run) : Prop :=
  match r with
  | Run _ b _ _ _ => b = false
  | Break => True
  end.

Definition not_underlined (r : run) : Prop :=
  match r with
  | Run _ _ ul _ _ => ul = false
  | Break => True
  end.

(** The five characters that [html.escape] replaces: ampersand, less
    than, greater than, double quote, single quote. *)
Definition html_special : list N := [38; 60; 62; 34; 39]%N.

(** None of the five occurs in the text. *)
Definition html_safe (s : pystr) : bool :=
  forallb (fun c => negb (has c s)) html_special.

(** The four inputs that the assembler reads with [app_inputs[...]]. *)
Definition required_inputs : list pystr :=
  [u "client_type"; u "claim_assigned"; u "selected_track"; u "hourly_rate"].

(** The characters that XML allows in a text: the document library
    refuses a text that holds any other. *)
Definition xml_char (c : N) : bool :=
  ((c =? 9) || (c =? 10) || (c =? 13)
   || (32 <=? c) && (c <=? 55295)
   || (57344 <=? c) && (c <=? 65533)
   || (65536 <=? c) && (c <=? 1114111))%N.

(** The characters that the document library stores in a run as they
    are: those that XML allows, without the tab, the line feed and the
    carriage return, which it stores as elements of their own. *)
Definition stored_as_is (c : N) : bool := (xml_char c && (32 <=? c))%N.

Definition or_line_feed (P : N -> bool) (c : N) : bool :=
  (P c || (c =? 10))%N.

(** The text handed over by a run is made of characters that satisfy [P]. *)
Definition run_chars (P : N -> bool) (r : run) : bool :=
  match r with
  | Run text _ _ _ _ => forallb P text
  | Break => true
  end.

(** The same for the texts of a block: those of its runs, or the style
    and the cells of a table. *)
Definition block_chars (P : N -> bool) (b : block) : bool :=
  match b with
  | Paragraph p => forallb (run_chars P) (runs p)
  | Table style rows => forallb P style && forallb (forallb (forallb P)) rows
  end.

(** The list markers at the start of the lines [lines] are all of the
    kind [k], where there are any. *)
Definition markers_agree (k : list_kind) (lines : list pystr) : bool :=
  forallb
    (fun l =>
       match determine_list_type l with
       | Some k' => list_kind_eqb k' k
       | None => true
       end)
    lines.

(** The lines start with list markers of one kind at most. *)
Definition one_marker_kind (lines : list pystr) : bool :=
  existsb (fun k => markers_agree k lines) [Numbered; Letter; Roman].

(** What the buffer keeps: its markers are of the current list type when
    there is one, and of one kind in any case. *)
Definition buffer_markers_ok (st : parser_state) : Prop :=
  match current_list_type st with
  | Some k => markers_agree k (block_lines st) = true
  | None => one_marker_kind (block_lines st) = true
  end.

(** The template whose lines are [lines]: the lines, with a line feed
    between one and the next. *)
Fixpoint join_lines (lines : list pystr) : pystr :=
  match lines with
  | [] => []
  | [l] => l
  | l :: rest => l ++ 10%N :: join_lines rest
  end.


Definition is_some {A : Type} (o : option A) : bool :=
  match o with Some _ => true | None => false end.

Definition is_ok {A : Type} (r : result A) : bool :=
  match r with Ok _ => true | Raise _ => false end.

(** * Properties *)

(** ** Strings and dictionaries *)

Lemma eqb_eq (s t : pystr) : PyStr.eqb s t = true <-> s = t.
Proof.
  revert t; induction s as [|c s IH]; intros [|d t]; simpl;
    try (split; [discriminate | discriminate]); try tauto.
  rewrite andb_true_iff, N.eqb_eq, IH.
  split; [intros [-> ->]; reflexivity | intros H; inversion H; auto].
Qed.

Lemma eqb_refl (s : pystr) : PyStr.eqb s s = true.
Proof. apply eqb_eq; reflexivity. Qed.

Lemma eqb_neq (s t : pystr) : PyStr.eqb s t = false <-> s <> t.
Proof.
  rewrite <- eqb_eq. destruct (PyStr.eqb s t); split; congruence.
Qed.

Lemma eqb_sym (s t : pystr) : PyStr.eqb s t = PyStr.eqb t s.
Proof.
  destruct (PyStr.eqb s t) eqn:E.
  - apply eqb_eq in E; subst; symmetry; apply eqb_refl.
  - symmetry; apply eqb_neq; apply eqb_neq in E; congruence.
Qed.

(** A text in which [old] does not occur is left as it is by [replace]. *)
Lemma replace_from_absent (old new s : pystr) :
  contains s old = false -> replace_from old new 0 s = s.
Proof.
  induction s as [|c s IH]; simpl; [reflexivity|].
  intros H. apply orb_false_iff in H as [H1 H2].
  destruct old as [|d old]; [discriminate|].
  simpl in H1 |- *. rewrite H1, IH; auto.
Qed.

Lemma replace_absent (s old new : pystr) :
  contains s old = false -> replace s old new = s.
Proof.
  intros H. destruct old as [|d old].
  - destruct s; discriminate.
  - apply replace_from_absent; assumption.
Qed.

Section DictFacts.
Variable V : Type.
Implicit Types (d items : dict V) (k : pystr) (v : V).

Lemma get_set_same d k v : get (set d k v) k = Some v.
Proof.
  induction d as [|[k' v'] d IH]; simpl.
  - rewrite eqb_refl; reflexivity.
  - destruct (PyStr.eqb k' k) eqn:E; simpl; rewrite E; auto.
Qed.

Lemma get_set_other d k k' v :
  PyStr.eqb k' k = false -> get (set d k' v) k = get d k.
Proof.
  intros Hk. induction d as [|[k0 v0] d IH]; simpl.
  - rewrite Hk; reflexivity.
  - destruct (PyStr.eqb k0 k') eqn:E; simpl.
    + apply eqb_eq in E; subst k0. rewrite Hk; reflexivity.
    + rewrite IH; reflexivity.
Qed.

Lemma get_none_existsb items k :
  existsb (PyStr.eqb k) (keys items) = false -> get items k = None.
Proof.
  induction items as [|[k' v'] items IH]; simpl; [reflexivity|].
  intros H. apply orb_false_iff in H as [H1 H2].
  rewrite eqb_sym, H1. auto.
Qed.

(** Updating with items the key does not occur in leaves its value. *)
Lemma get_update_none items d k :
  get items k = None -> get (update d items) k = get d k.
Proof.
  revert d; induction items as [|[k' v'] items IH]; intros d; simpl;
    [reflexivity|].
  destruct (PyStr.eqb k' k) eqn:E; [discriminate|].
  intros H. unfold update in *. simpl. rewrite IH by assumption.
  apply get_set_other; assumption.
Qed.

(** Updating with the items of a dictionary: its bindings win. *)
Lemma get_update items d k :
  wf items ->
  get (update d items) k =
  match get items k with
  | Some v => Some v
  | None => get d k
  end.
Proof.
  unfold wf. revert d; induction items as [|[k' v'] items IH]; intros d;
    simpl; [reflexivity|].
  intros H. apply andb_true_iff in H as [H1 H2].
  apply negb_true_iff in H1.
  unfold update in *; simpl. rewrite IH by assumption.
  destruct (PyStr.eqb k' k) eqn:E.
  - apply eqb_eq in E; subst k'.
    rewrite (get_none_existsb items k H1). apply get_set_same.
  - destruct (get items k); [reflexivity|].
    apply get_set_other; assumption.
Qed.

(** A display with distinct keys is the list of its items. *)
Lemma update_fresh items d :
  distinct (keys (d ++ items)) = true -> update d items = d ++ items.
Proof.
  revert d; induction items as [|[k v] items IH]; intros d H.
  - simpl. rewrite app_nil_r. reflexivity.
  - unfold update in *; simpl.
    assert (Hset : set d k v = d ++ [(k, v)]).
    { clear IH. induction d as [|[k' v'] d IHd]; simpl; [reflexivity|].
      simpl in H. apply andb_true_iff in H as [H1 H2].
      apply negb_true_iff in H1.
      unfold keys in H1. rewrite map_app, existsb_app in H1.
      apply orb_false_iff in H1 as [_ H1]. simpl in H1.
      apply orb_false_iff in H1 as [H1 _].
      rewrite H1. rewrite IHd by assumption. reflexivity. }
    rewrite Hset. rewrite IH; rewrite <- app_assoc; [reflexivity|exact H].
Qed.

Lemma of_items_wf items : wf items -> of_items items = items.
Proof. intros H. apply (update_fresh items []). exact H. Qed.

End DictFacts.

(** ** Parser: classification at a flush *)

Lemma contains_nil_false (p : pystr) : p <> [] -> contains [] p = false.
Proof. destruct p; [congruence | reflexivity]. Qed.

(** A buffer whose first line, stripped, contains the underline-open
    marker is flushed as a heading, whatever the active list type is. *)
Lemma flush_block_heading (els : list element) (tag : option pystr)
    (first : pystr) (rest : list pystr) (lt : option list_kind) :
  contains (strip first) (u "<ins>") = true ->
  flush_block els tag (first :: rest) lt
  = els ++ [Build_element heading (first :: rest) tag None].
Proof.
  intros H. unfold flush_block.
  destruct (strip first) as [|c s] eqn:E.
  - rewrite contains_nil_false in H; [discriminate | discriminate].
  - rewrite H. reflexivity.
Qed.

Lemma splitlines_from_one_line (s : pystr) :
  one_line s = true ->
  forall cur,
    splitlines_from cur s
    = match rev cur ++ s with
      | [] => []
      | _ :: _ => [rev cur ++ s]
      end.
Proof.
  induction s as [|c s IH]; intros H cur.
  - cbn [splitlines_from]. rewrite app_nil_r.
    destruct cur as [|d cur]; [reflexivity|].
    destruct (rev (d :: cur)) eqn:E; [|reflexivity].
    apply (f_equal (@List.length N)) in E. rewrite length_rev in E.
    discriminate.
  - unfold one_line in H. cbn [forallb] in H.
    apply andb_true_iff in H as [Hc Hs]. apply negb_true_iff in Hc.
    cbn [splitlines_from]. rewrite Hc, (IH Hs).
    cbn [rev]. rewrite <- app_assoc. reflexivity.
Qed.

Lemma splitlines_one_line (s : pystr) :
  one_line s = true -> s <> [] -> splitlines s = [s].
Proof.
  intros H Hne. unfold splitlines.
  rewrite splitlines_from_one_line by assumption.
  destruct s; [congruence | reflexivity].
Qed.

(** A text that starts with the numbered marker. *)
Lemma startswith_numbered (s : pystr) :
  startswith s (u "1.") = true -> exists r, s = 49%N :: 46%N :: r.
Proof.
  destruct s as [|a [|b r]]; cbn.
  - discriminate.
  - rewrite andb_false_r. discriminate.
  - intros H. apply andb_true_iff in H as [Ha H].
    apply andb_true_iff in H as [Hb _].
    apply N.eqb_eq in Ha, Hb. subst. exists r. reflexivity.
Qed.

(** C1, as the program has it.  A buffer whose first line, stripped,
    contains the underline-open marker is flushed as a heading with no list
    type, whatever the active list type is: the underline test comes before
    the list type is looked at.  So a template of one line that begins with
    the numbered-list marker and contains the underline-open marker later
    is parsed into one heading, not into a numbered list item, although the
    line sets the list type to numbered. *)
Theorem underline_line_is_heading :
  (forall els tag first rest lt,
      contains (strip first) (u "<ins>") = true ->
      flush_block els tag (first :: rest) lt
      = els ++ [Build_element heading (first :: rest) tag None])
  /\ (forall line app_inputs,
        one_line line = true ->
        startswith (strip line) (u "1.") = true ->
        contains (strip line) (u "<ins>") = true ->
        determine_list_type line = Some Numbered
        /\ preprocess_precedent line app_inputs
           = [Build_element heading [line] None None]).
Proof.
  split; [intros; apply flush_block_heading; assumption|].
  intros line app_inputs Hone Hnum Hins.
  destruct (startswith_numbered _ Hnum) as [r Hr].
  split.
  - unfold determine_list_type. rewrite Hr. vm_compute; reflexivity.
  - assert (Hne : line <> []) by (intros ->; discriminate).
    unfold preprocess_precedent.
    rewrite (splitlines_one_line Hone Hne).
    cbn [fold_left]. unfold step at 1 2 3 4. rewrite Hr.
    cbn [initial_state logical_elements current_block_tag block_lines
         current_list_type].
    replace (match_tag (u "[") (49%N :: 46%N :: r)) with (@None pystr)
      by (vm_compute; reflexivity).
    replace (match_tag (u "[/") (49%N :: 46%N :: r)) with (@None pystr)
      by (vm_compute; reflexivity).
    cbn [nonempty andb app block_lines logical_elements current_block_tag
         current_list_type].
    rewrite andb_false_r.
    cbn [nonempty andb app block_lines logical_elements current_block_tag
         current_list_type].
    apply (flush_block_heading [] None line []). exact Hins.
Qed.

Lemma underline_line_is_heading_witness :
  let line := u "1. First item <ins>Heading</ins>" in
  determine_list_type line = Some Numbered
  /\ preprocess_precedent line []
     = [Build_element heading [line] None None].
Proof.
  cbv zeta.
  apply (proj2 underline_line_is_heading
           (u "1. First item <ins>Heading</ins>") []);
    vm_compute; reflexivity.
Defined.

(** C1, as stated, fails: the template line of the specification's scenario
    is parsed into one element, of type heading and not of type numbered,
    and so is a flushed buffer that starts with it while the active list
    type is numbered. *)
Lemma numbered_line_with_underline_counterexample :
  let line := u "1. First item <ins>Heading</ins>" in
  determine_list_type line = Some Numbered
  /\ map type (preprocess_precedent line []) = [heading]
  /\ map type (flush_block [] None [line] (Some Numbered)) = [heading]
  /\ heading <> numbered.
Proof.
  repeat split; try reflexivity. discriminate.
Qed.

(** ** Renderer: substitution *)

Lemma substitute_cons (k : pystr) (v : pyval) (pm : dict pyval) (text : pystr) :
  substitute ((k, v) :: pm) text = substitute pm (replace text (token k) (str v)).
Proof. reflexivity. Qed.

Lemma substitute_unchanged (pm : dict pyval) (text : pystr) :
  token_free pm text = true -> substitute pm text = text.
Proof.
  induction pm as [|[k v] pm IH]; [reflexivity|].
  intros H.
  change (negb (contains text (token k)) && token_free pm text = true) in H.
  apply andb_true_iff in H as [H1 H2].
  apply negb_true_iff in H1.
  rewrite substitute_cons, replace_absent by exact H1.
  apply IH; assumption.
Qed.

(** C2, as the program has it: the substitution makes one pass of
    [replace] for each key, in the order of the map, and the pass of a key
    runs over the text that the passes of the earlier keys have left; a
    text in which no token of the map occurs is left unchanged, so
    substituting again in a token-free result changes nothing. *)
Theorem substitute_passes (pm : dict pyval) (text : pystr) :
  (forall k v,
      substitute (pm ++ [(k, v)]) text
      = replace (substitute pm text) (token k) (str v))
  /\ (token_free pm text = true -> substitute pm text = text).
Proof.
  split.
  - intros k v. unfold substitute. rewrite fold_left_app. reflexivity.
  - apply substitute_unchanged.
Qed.

Lemma substitute_passes_witness :
  let pm := get_placeholder_map [(u "our_ref", PStr (u "PDP/10011/001"))]
              load_firm_details in
  let once := substitute pm (u "Our ref: {our_ref}") in
  once = u "Our ref: PDP/10011/001"
  /\ token_free pm once = true
  /\ substitute pm once = once.
Proof.
  cbv zeta. split; [vm_compute; reflexivity|].
  split; [vm_compute; reflexivity|].
  apply (proj2 (substitute_passes _ _)). vm_compute; reflexivity.
Defined.

(** C2, as stated, fails: each key has its own pass over the text the
    earlier passes left, so a value that holds the token of a later key is
    expanded again.  Here the answer to the first question holds the token
    of the reference. *)
Lemma substitution_reexpands_counterexample :
  let pm := get_placeholder_map
              [ (u "qu1_dispute_nature", PStr (u "{our_ref}"));
                (u "our_ref", PStr (u "PDP/10011/001")) ]
              load_firm_details in
  get pm (u "qu1_dispute_nature") = Some (PStr (u "{our_ref}"))
  /\ substitute pm (u "{qu1_dispute_nature}") = u "PDP/10011/001"
  /\ ~ values_never_reexpanded.
Proof.
  cbv zeta. split; [vm_compute; reflexivity|].
  split; [vm_compute; reflexivity|].
  intros H.
  specialize (H [ (u "a", PStr (u "{b}")); (u "b", PStr (u "X")) ]
                (u "a") (PStr (u "{b}")) eq_refl).
  vm_compute in H. discriminate.
Qed.

(** ** Renderer: markup *)

Lemma line_runs_carry (ls : list pystr) (b ul : bool) :
  forall i, Forall (carries b ul) (line_runs i ls b ul).
Proof.
  induction ls as [|l ls IH]; intros i; simpl; [constructor|].
  apply Forall_app; split.
  - destruct (0 <? i)%nat; repeat constructor.
  - constructor; [simpl; auto | apply IH].
Qed.

(** The runs of a list of parts, cut anywhere: the later parts are rendered
    from the toggle state that the earlier parts leave. *)
Lemma render_parts_app (pre post : list pystr) :
  forall b ul,
    render_parts (pre ++ post) b ul
    = render_parts pre b ul
      ++ render_parts post (fst (toggles_after pre (b, ul)))
           (snd (toggles_after pre (b, ul))).
Proof.
  induction pre as [|part pre IH]; intros b ul; [reflexivity|].
  change ((part :: pre) ++ post) with (part :: (pre ++ post)).
  destruct part as [|c part]; [apply IH|].
  cbn [render_parts toggles_after fst snd].
  destruct (PyStr.eqb (c :: part) (u "<bd>")); [apply IH|].
  destruct (PyStr.eqb (c :: part) (u "</bd>")); [apply IH|].
  destruct (PyStr.eqb (c :: part) (u "<ins>")); [apply IH|].
  destruct (PyStr.eqb (c :: part) (u "</ins>")); [apply IH|].
  rewrite <- app_assoc, IH. reflexivity.
Qed.

Lemma render_parts_text (part : pystr) (rest : list pystr) (b ul : bool) :
  is_text part = true ->
  render_parts (part :: rest) b ul
  = line_runs 0 (split_nl part) b ul ++ render_parts rest b ul.
Proof.
  unfold is_text, markers. intros H.
  apply andb_true_iff in H as [H1 H2]. apply negb_true_iff in H2.
  cbn [existsb] in H2.
  repeat (apply orb_false_iff in H2; destruct H2 as [? H2]).
  destruct part as [|c part]; [discriminate|].
  cbn [render_parts].
  repeat match goal with H : PyStr.eqb _ _ = false |- _ => rewrite H; clear H end.
  reflexivity.
Qed.

(** C7: the line of the specification's example is rendered as exactly one
    run, bold and not underlined, with the text of the total; the two
    toggles start false; a text segment, wherever it stands among the parts
    of the line, is emitted with the toggle state that the parts before it
    have left, and every run emitted for it carries that state. *)
Theorem formatted_runs_toggles :
  formatted_runs (u "<bd>Total: {qu4_initial_costs_with_vat}</bd>")
    [(u "qu4_initial_costs_with_vat", PStr (u "£500 plus VAT"))]
  = [text_run "Total: £500 plus VAT" true false]
  /\ (forall text pm,
        formatted_runs text pm
        = render_parts (re_split (substitute pm text)) false false)
  /\ (forall pre part post,
        is_text part = true ->
        let state := toggles_after pre (false, false) in
        render_parts (pre ++ part :: post) false false
        = render_parts pre false false
          ++ line_runs 0 (split_nl part) (fst state) (snd state)
          ++ render_parts post (fst state) (snd state)
        /\ Forall (carries (fst state) (snd state))
             (line_runs 0 (split_nl part) (fst state) (snd state))).
Proof.
  split; [vm_compute; reflexivity|].
  split; [reflexivity|].
  intros pre part post Htext state. split.
  - rewrite render_parts_app. fold state.
    rewrite render_parts_text by assumption. reflexivity.
  - apply line_runs_carry.
Qed.

Lemma formatted_runs_toggles_witness :
  let parts := re_split (u "plain <bd>bold <ins>both</bd> underlined") in
  parts = [u "plain "; u "<bd>"; u "bold "; u "<ins>"; u "both"; u "</bd>";
           u " underlined"]
  /\ render_parts parts false false
     = render_parts [u "plain "; u "<bd>"; u "bold "; u "<ins>"] false false
       ++ line_runs 0 (split_nl (u "both")) true true
       ++ render_parts [u "</bd>"; u " underlined"] true true.
Proof.
  cbv zeta. split; [vm_compute; reflexivity|].
  change (re_split (u "plain <bd>bold <ins>both</bd> underlined"))
    with ([u "plain "; u "<bd>"; u "bold "; u "<ins>"]
          ++ u "both" :: [u "</bd>"; u " underlined"]).
  apply (proj2 (proj2 formatted_runs_toggles)
           [u "plain "; u "<bd>"; u "bold "; u "<ins>"] (u "both")
           [u "</bd>"; u " underlined"]).
  reflexivity.
Defined.

(** ** Assembler: visibility *)

Section Visibility.

Variable app_inputs : dict pyval.
Variables (client_type selected_track : pystr) (claim_assigned : bool).
Hypothesis client_type_given :
  get app_inputs (u "client_type") = Some (PStr client_type).
Hypothesis claim_assigned_given :
  get app_inputs (u "claim_assigned") = Some (PBool claim_assigned).
Hypothesis selected_track_given :
  get app_inputs (u "selected_track") = Some (PStr selected_track).

Lemma index_client_type :
  index app_inputs (u "client_type") = Ok (PStr client_type).
Proof. unfold index. rewrite client_type_given. reflexivity. Qed.

Lemma index_claim_assigned :
  index app_inputs (u "claim_assigned") = Ok (PBool claim_assigned).
Proof. unfold index. rewrite claim_assigned_given. reflexivity. Qed.

Lemma index_selected_track :
  index app_inputs (u "selected_track") = Ok (PStr selected_track).
Proof. unfold index. rewrite selected_track_given. reflexivity. Qed.

(** The decision for an element in a block, with the inputs read. *)
Lemma render_this_element_tagged (e : element) (tag : pystr) :
  block_tag e = Some tag ->
  nonempty tag = true ->
  render_this_element app_inputs e
  = Ok (if PyStr.eqb tag (u "indiv")
        then PyStr.eqb client_type (u "Individual")
        else if PyStr.eqb tag (u "corp")
        then PyStr.eqb client_type (u "Corporate")
        else should_render_track_block tag (PBool claim_assigned)
               (PStr selected_track)).
Proof.
  unfold render_this_element. intros -> Hne.
  destruct tag as [|c tag]; [discriminate|].
  rewrite index_client_type, index_claim_assigned, index_selected_track.
  destruct (PyStr.eqb (c :: tag) (u "indiv")); [reflexivity|].
  destruct (PyStr.eqb (c :: tag) (u "corp")); reflexivity.
Qed.

Lemma tag_map_table :
  tag_map
  = [ (u "a1", (true, u "Small Claims Track")); (u "a2", (true, u "Fast Track"));
      (u "a3", (true, u "Intermediate Track")); (u "a4", (true, u "Multi Track"));
      (u "u1", (false, u "Small Claims Track")); (u "u2", (false, u "Fast Track"));
      (u "u3", (false, u "Intermediate Track")); (u "u4", (false, u "Multi Track")) ].
Proof. reflexivity. Qed.

Lemma track_tag_renders (e : element) (tag : pystr) (assigned : bool)
    (track : pystr) :
  In (tag, (assigned, track)) tag_map ->
  block_tag e = Some tag ->
  render_this_element app_inputs e
  = Ok (Bool.eqb claim_assigned assigned && PyStr.eqb selected_track track).
Proof.
  rewrite tag_map_table. intros Hin Htag.
  cbn [In] in Hin.
  repeat (destruct Hin as [Hin|Hin];
          [ injection Hin as <- <- <-;
            rewrite (render_this_element_tagged e Htag eq_refl); reflexivity
          | ]).
  contradiction.
Qed.

(** C4: whether an element is rendered is decided by its block tag and the
    three selections alone.  An element outside any block is rendered; one
    in an [indiv] or [corp] block is rendered exactly when the client type
    is Individual or Corporate; one in a block [a1] to [a4] or [u1] to [u4]
    is rendered exactly when the claim-assigned flag and the selected track
    are those of the tag in the table.  With the claim assigned and the
    Fast Track selected, of the eight track tags exactly [a2] is rendered.
    An element that is not to be rendered contributes nothing, and one that
    is to be rendered contributes its blocks, before those of the elements
    that follow. *)
Theorem element_visibility :
  (forall e e',
      block_tag e = block_tag e' ->
      render_this_element app_inputs e = render_this_element app_inputs e')
  /\ (forall e, block_tag e = None -> render_this_element app_inputs e = Ok true)
  /\ (forall e,
        block_tag e = Some (u "indiv") ->
        render_this_element app_inputs e
        = Ok (PyStr.eqb client_type (u "Individual")))
  /\ (forall e,
        block_tag e = Some (u "corp") ->
        render_this_element app_inputs e
        = Ok (PyStr.eqb client_type (u "Corporate")))
  /\ (forall e tag assigned track,
        In (tag, (assigned, track))
           [ (u "a1", (true, u "Small Claims Track"));
             (u "a2", (true, u "Fast Track"));
             (u "a3", (true, u "Intermediate Track"));
             (u "a4", (true, u "Multi Track"));
             (u "u1", (false, u "Small Claims Track"));
             (u "u2", (false, u "Fast Track"));
             (u "u3", (false, u "Intermediate Track"));
             (u "u4", (false, u "Multi Track")) ] ->
        block_tag e = Some tag ->
        render_this_element app_inputs e
        = Ok (Bool.eqb claim_assigned assigned
              && PyStr.eqb selected_track track))
  /\ (claim_assigned = true ->
      selected_track = u "Fast Track" ->
      forall e tag,
        In tag [u "a1"; u "a2"; u "a3"; u "a4"; u "u1"; u "u2"; u "u3"; u "u4"] ->
        block_tag e = Some tag ->
        render_this_element app_inputs e = Ok (PyStr.eqb tag (u "a2")))
  /\ (forall e rest placeholder_map,
        render_this_element app_inputs e = Ok false ->
        process_elements app_inputs placeholder_map (e :: rest)
        = process_elements app_inputs placeholder_map rest)
  /\ (forall e rest placeholder_map,
        render_this_element app_inputs e = Ok true ->
        process_elements app_inputs placeholder_map (e :: rest)
        = (added <- render_element app_inputs placeholder_map e ;;
           later <- process_elements app_inputs placeholder_map rest ;;
           Ok (added ++ later))).
Proof.
  split; [intros e e' H; unfold render_this_element; rewrite H; reflexivity|].
  split; [intros e H; unfold render_this_element; rewrite H; reflexivity|].
  split; [intros e H; rewrite (render_this_element_tagged e H eq_refl);
          reflexivity|].
  split; [intros e H; rewrite (render_this_element_tagged e H eq_refl);
          reflexivity|].
  split; [intros e tag assigned track Hin Htag;
          apply track_tag_renders with (tag := tag);
          [rewrite tag_map_table; exact Hin | exact Htag]|].
  split.
  - intros Hassigned Htrack e tag Hin Htag. cbn [In] in Hin.
    repeat (destruct Hin as [Hin|Hin];
            [ subst tag;
              rewrite (render_this_element_tagged e Htag eq_refl);
              rewrite Hassigned, Htrack; reflexivity
            | ]).
    contradiction.
  - split; intros e rest pm H; cbn [process_elements]; rewrite H;
      reflexivity.
Qed.

End Visibility.

Lemma element_visibility_witness :
  let app_inputs :=
    [ (u "client_type", PStr (u "Individual"));
      (u "claim_assigned", PBool true);
      (u "selected_track", PStr (u "Fast Track")) ] in
  map (fun tag =>
         render_this_element app_inputs
           (Build_element general_paragraph [u "text"] (Some tag) None))
      [u "a1"; u "a2"; u "a3"; u "a4"; u "u1"; u "u2"; u "u3"; u "u4"]
  = [Ok false; Ok true; Ok false; Ok false;
     Ok false; Ok false; Ok false; Ok false]
  /\ process_elements app_inputs []
       [ Build_element general_paragraph [u "text"] (Some (u "a2")) None;
         Build_element general_paragraph [u "other"] (Some (u "a1")) None ]
     = Ok [ Paragraph
              (Build_paragraph [text_run "text" false false] None
                 (Some JUSTIFY) None (Some (Pt 12)) None) ]
  /\ render_this_element app_inputs
       (Build_element general_paragraph [u "text"] (Some (u "a2")) None)
     = Ok true.
Proof.
  cbv zeta. split; [vm_compute; reflexivity|].
  split; [vm_compute; reflexivity|].
  apply (proj1 (proj2 (proj2 (proj2 (proj2 (proj2
           (element_visibility
              [ (u "client_type", PStr (u "Individual"));
                (u "claim_assigned", PBool true);
                (u "selected_track", PStr (u "Fast Track")) ]
              (client_type := u "Individual")
              (selected_track := u "Fast Track")
              (claim_assigned := true)
              eq_refl eq_refl eq_refl))))))
           eq_refl eq_refl
           (Build_element general_paragraph [u "text"] (Some (u "a2")) None)
           (u "a2")).
  - vm_compute. auto.
  - reflexivity.
Defined.

(** ** Assembler: the fee table *)

(** C5: a fee-table element adds a table of five rows and two columns and
    then a spacer paragraph.  The second cell of the third row is the pound
    sign, the text of the hourly rate and the fixed description, so for an
    hourly rate of 295 it reads exactly
    "£295 (Solicitors/Legal Executives under 4 years)"; every other cell is
    the same text whatever the inputs are. *)
Theorem fee_table_rendering (app_inputs placeholder_map : dict pyval)
    (e : element) (hourly_rate : pyval) :
  type e = fee_table ->
  get app_inputs (u "hourly_rate") = Some hourly_rate ->
  render_element app_inputs placeholder_map e
  = Ok [ Table (u "Table Grid")
           [ [u "Grade A"; u "£450 (Partners, Solicitors over 8 years)"];
             [u "Grade B"; u "£350 (Solicitors/Legal Executives over 4 years)"];
             [u "Grade C";
               u "£" ++ str hourly_rate
               ++ u " (Solicitors/Legal Executives under 4 years)"];
             [u "Grade D"; u "£250 (Trainees, Paralegals)"];
             [u "Grade E"; u "£150 (Support Staff)"] ];
         Paragraph (Build_paragraph [] None None None (Some (Pt 12)) None) ]
  /\ (hourly_rate = PInt 295 ->
      u "£" ++ str hourly_rate
      ++ u " (Solicitors/Legal Executives under 4 years)"
      = u "£295 (Solicitors/Legal Executives under 4 years)").
Proof.
  intros Hty Hrate. split.
  - unfold render_element, index. rewrite Hty, Hrate.
    vm_compute; reflexivity.
  - intros ->. vm_compute; reflexivity.
Qed.

Lemma fee_table_rendering_witness :
  render_element [(u "hourly_rate", PInt 295)] []
    (Build_element fee_table [u "[FEE_TABLE_PLACEHOLDER]"] None None)
  = Ok [ Table (u "Table Grid")
           [ [u "Grade A"; u "£450 (Partners, Solicitors over 8 years)"];
             [u "Grade B"; u "£350 (Solicitors/Legal Executives over 4 years)"];
             [u "Grade C"; u "£295 (Solicitors/Legal Executives under 4 years)"];
             [u "Grade D"; u "£250 (Trainees, Paralegals)"];
             [u "Grade E"; u "£150 (Support Staff)"] ];
         Paragraph (Build_paragraph [] None None None (Some (Pt 12)) None) ].
Proof.
  rewrite (proj1 (fee_table_rendering [(u "hourly_rate", PInt 295)] []
                    (Build_element fee_table [u "[FEE_TABLE_PLACEHOLDER]"]
                       None None)
                    (hourly_rate := PInt 295) eq_refl eq_refl)).
  vm_compute; reflexivity.
Defined.

(** ** Assembler: list items and the lines of an element *)

(** C3, on the program: every list item refers to the one numbering
    instance, at level 0, 1 and 2 for the three list types, and the letter
    and roman markers are taken out of the text, but the numbered marker is
    not: the item "1. First item" is rendered with the text
    "1. First item". *)
Theorem list_item_rendering :
  (forall app_inputs placeholder_map lines tag lt,
      render_element app_inputs placeholder_map
        (Build_element numbered lines tag lt)
      = Ok [Paragraph (add_list_item placeholder_map 0 (hd [] lines))]
      /\ render_element app_inputs placeholder_map
           (Build_element letter lines tag lt)
         = Ok [Paragraph (add_list_item placeholder_map 1 (hd [] lines))]
      /\ render_element app_inputs placeholder_map
           (Build_element roman lines tag lt)
         = Ok [Paragraph (add_list_item placeholder_map 2 (hd [] lines))])
  /\ (forall placeholder_map level text,
        numPr (add_list_item placeholder_map level text)
        = Some (level, num_instance_id))
  /\ map runs
       [ add_list_item [] 1 (u "<a> Second level");
         add_list_item [] 2 (u "<i> Third level");
         add_list_item [] 0 (u "1. First item") ]
     = [ [text_run "Second level" false false];
         [text_run "Third level" false false];
         [text_run "1. First item" false false] ]
  /\ (forall app_inputs,
        process_precedent_text (u "1. First item") app_inputs []
        = Ok (Build_document (u "Arial", Pt 11) numbering_scheme
                [ Paragraph
                    (Build_paragraph [text_run "1. First item" false false]
                       (Some (0%Z, 1%Z)) (Some JUSTIFY) None (Some (Pt 6))
                       None) ])).
Proof.
  split; [|split; [|split]].
  - intros. unfold render_element. cbn [type content_lines hd].
    repeat split.
  - intros. reflexivity.
  - vm_compute; reflexivity.
  - intros. unfold process_precedent_text.
    replace (preprocess_precedent (u "1. First item") app_inputs)
      with [Build_element numbered [u "1. First item"] None (Some Numbered)]
      by (vm_compute; reflexivity).
    vm_compute; reflexivity.
Qed.


(** ** Resolver *)

Lemma get_map_str (firm_details : dict pyval) (k : pystr) :
  get (map (fun kv => (fst kv, PStr (str (snd kv)))) firm_details) k
  = option_map (fun v => PStr (str v)) (get firm_details k).
Proof.
  induction firm_details as [|[k' v'] d IH]; simpl; [reflexivity|].
  destruct (PyStr.eqb k' k); [reflexivity | exact IH].
Qed.

Lemma keys_map_str (firm_details : dict pyval) :
  keys (map (fun kv => (fst kv, PStr (str (snd kv)))) firm_details)
  = keys firm_details.
Proof.
  unfold keys. rewrite map_map. reflexivity.
Qed.

Lemma placeholder_items_wf (app_inputs : dict pyval) :
  wf (placeholder_items app_inputs).
Proof. unfold wf. vm_compute. reflexivity. Qed.

(** The map is the display of the fourteen fields, overwritten by the firm
    fields. *)
Lemma get_placeholder_map_get (app_inputs firm_details : dict pyval)
    (k : pystr) :
  wf firm_details ->
  get (get_placeholder_map app_inputs firm_details) k
  = match get firm_details k with
    | Some v => Some (PStr (str v))
    | None => get (placeholder_items app_inputs) k
    end.
Proof.
  intros Hwf. unfold get_placeholder_map.
  assert (Hwf' : wf (map (fun kv => (fst kv, PStr (str (snd kv))))
                       firm_details)).
  { unfold wf. rewrite keys_map_str. exact Hwf. }
  rewrite (of_items_wf (placeholder_items_wf app_inputs)).
  rewrite (of_items_wf Hwf').
  rewrite (get_update _ _ Hwf'), get_map_str.
  destruct (get firm_details k); reflexivity.
Qed.

(** The same without the invariant, for a name that is not a firm field. *)
Lemma get_placeholder_map_not_firm (app_inputs firm_details : dict pyval)
    (k : pystr) :
  get firm_details k = None ->
  get (get_placeholder_map app_inputs firm_details) k
  = get (placeholder_items app_inputs) k.
Proof.
  intros Hk. unfold get_placeholder_map.
  rewrite (of_items_wf (placeholder_items_wf app_inputs)).
  apply get_update_none. unfold of_items.
  rewrite get_update_none; [reflexivity|].
  rewrite get_map_str, Hk. reflexivity.
Qed.

Lemma get_values (P : pyval -> Prop) (d : dict pyval) :
  Forall (fun kv => P (snd kv)) d ->
  forall k v, get d k = Some v -> P v.
Proof.
  induction 1 as [|[k' v'] d Hv Hd IH]; simpl; intros k v; [discriminate|].
  destruct (PyStr.eqb k' k); [intros [= <-]; exact Hv | apply IH].
Qed.

Lemma placeholder_items_str (app_inputs : dict pyval) :
  raw_inputs_are_str app_inputs = true ->
  Forall (fun kv => is_str (snd kv) = true) (placeholder_items app_inputs).
Proof.
  unfold raw_inputs_are_str, raw_fields. cbn [forallb fst].
  intros H.
  repeat (apply andb_true_iff in H; destruct H as [? H]).
  unfold placeholder_items, raw_field, str_field, get_or.
  repeat constructor; cbn [snd];
    match goal with
    | |- is_str (match get app_inputs ?k with _ => _ end) = true =>
        destruct (get app_inputs k); [assumption | reflexivity]
    end.
Qed.

(** C6, as the program has it.  A name that is a firm field is bound to
    the text of the firm value.  Of the other names, the ten that go
    through [str] are bound to the text of the input they are read from,
    the empty string when that input is absent, where [matter_number] is
    read from the input [our_ref]; the four others are bound to the input
    of their own name as it is, and when it is absent to the empty string,
    or to "XX,XXX" for [qu4_initial_costs_with_vat].  Every value of the
    map is a string when those four inputs are. *)
Theorem placeholder_map_values (app_inputs firm_details : dict pyval) :
  wf firm_details ->
  let pm := get_placeholder_map app_inputs firm_details in
  (forall k v,
      get firm_details k = Some v -> get pm k = Some (PStr (str v)))
  /\ (forall k from,
        In (k, from) str_fields ->
        get firm_details k = None ->
        get pm k = Some (PStr (str (get_or app_inputs from (PStr []))))
        /\ (get app_inputs from = None -> get pm k = Some (PStr [])))
  /\ (forall k default,
        In (k, default) raw_fields ->
        get firm_details k = None ->
        get pm k = Some (get_or app_inputs k default)
        /\ (get app_inputs k = None -> get pm k = Some default))
  /\ In (u "qu4_initial_costs_with_vat", PStr (u "XX,XXX")) raw_fields
  /\ (raw_inputs_are_str app_inputs = true ->
      forall k v, get pm k = Some v -> is_str v = true).
Proof.
  intros Hwf pm. subst pm.
  split; [|split; [|split; [|split]]].
  - intros k v Hk. rewrite get_placeholder_map_get, Hk by assumption.
    reflexivity.
  - intros k from Hin Hk.
    assert (E : get (get_placeholder_map app_inputs firm_details) k
                = Some (PStr (str (get_or app_inputs from (PStr []))))).
    { rewrite get_placeholder_map_not_firm by assumption.
      unfold str_fields in Hin. cbn [In] in Hin.
      repeat (destruct Hin as [Hin|Hin];
              [injection Hin as <- <-; vm_compute; reflexivity|]).
      contradiction. }
    split; [exact E|].
    intros Habsent. rewrite E. unfold get_or. rewrite Habsent. reflexivity.
  - intros k default Hin Hk.
    assert (E : get (get_placeholder_map app_inputs firm_details) k
                = Some (get_or app_inputs k default)).
    { rewrite get_placeholder_map_not_firm by assumption.
      unfold raw_fields in Hin. cbn [In] in Hin.
      repeat (destruct Hin as [Hin|Hin];
              [injection Hin as <- <-; vm_compute; reflexivity|]).
      contradiction. }
    split; [exact E|].
    intros Habsent. rewrite E. unfold get_or. rewrite Habsent. reflexivity.
  - unfold raw_fields. cbn [In]. auto.
  - intros Hraw k v. rewrite get_placeholder_map_get by assumption.
    destruct (get firm_details k).
    + intros [= <-]. reflexivity.
    + apply (get_values (fun v => is_str v = true)).
      apply placeholder_items_str; assumption.
Qed.

Lemma placeholder_map_values_witness :
  let app_inputs :=
    [ (u "qu1_dispute_nature", PStr (u "a contractual matter"));
      (u "our_ref", PStr (u "PDP/10011/001")) ] in
  let pm := get_placeholder_map app_inputs load_firm_details in
  wf load_firm_details
  /\ raw_inputs_are_str app_inputs = true
  /\ get pm (u "name") = Some (PStr (u "Ramsdens Solicitors LLP"))
  /\ get pm (u "your_ref") = Some (PStr [])
  /\ get pm (u "qu4_initial_costs_with_vat") = Some (PStr (u "XX,XXX"))
  /\ forall k v, get pm k = Some v -> is_str v = true.
Proof.
  cbv zeta.
  assert (Hwf : wf load_firm_details) by (vm_compute; reflexivity).
  split; [exact Hwf|].
  split; [vm_compute; reflexivity|].
  destruct (placeholder_map_values
              [ (u "qu1_dispute_nature", PStr (u "a contractual matter"));
                (u "our_ref", PStr (u "PDP/10011/001")) ]
              Hwf) as (Hfirm & _ & _ & _ & Hall).
  assert (Hname : get load_firm_details (u "name")
                  = Some (PStr (u "Ramsdens Solicitors LLP")))
    by (vm_compute; reflexivity).
  split; [rewrite (Hfirm _ _ Hname); vm_compute; reflexivity|].
  split; [vm_compute; reflexivity|].
  split; [vm_compute; reflexivity|].
  apply Hall. vm_compute; reflexivity.
Defined.

(** C6, as stated, fails.  The field [matter_number] is absent from the
    inputs and is not a firm field, and it is bound to the reference, not
    to the empty string; and a field that does not go through [str] keeps
    a value that is not a string. *)
Lemma placeholder_defaults_counterexample :
  let app_inputs := [(u "our_ref", PStr (u "PDP/10011/001"))] in
  let pm := get_placeholder_map app_inputs load_firm_details in
  get app_inputs (u "matter_number") = None
  /\ get load_firm_details (u "matter_number") = None
  /\ get pm (u "matter_number") = Some (PStr (u "PDP/10011/001"))
  /\ get pm (u "matter_number") <> Some (PStr [])
  /\ get (get_placeholder_map [(u "qu1_dispute_nature", PInt 7)]
            load_firm_details) (u "qu1_dispute_nature") = Some (PInt 7)
  /\ is_str (PInt 7) = false.
Proof.
  cbv zeta. repeat split; try (vm_compute; reflexivity).
  vm_compute. discriminate.
Qed.

Lemma placeholder_items_ignore_matter_number (app_inputs : dict pyval)
    (v : pyval) :
  placeholder_items (set app_inputs (u "matter_number") v)
  = placeholder_items app_inputs.
Proof.
  unfold placeholder_items, raw_field, str_field, get_or.
  rewrite !get_set_other by (vm_compute; reflexivity).
  reflexivity.
Qed.

(** C10: when the firm details bind neither name, as those of the program
    do, the map binds [matter_number] and [our_ref] to the same value, the
    text of the input [our_ref]; and the input [matter_number] has no
    effect on the map. *)
Theorem matter_number_is_our_ref (app_inputs firm_details : dict pyval) :
  get firm_details (u "matter_number") = None ->
  get firm_details (u "our_ref") = None ->
  let pm := get_placeholder_map app_inputs firm_details in
  get pm (u "matter_number") = get pm (u "our_ref")
  /\ get pm (u "matter_number")
     = Some (PStr (str (get_or app_inputs (u "our_ref") (PStr []))))
  /\ forall v,
       get_placeholder_map (set app_inputs (u "matter_number") v) firm_details
       = pm.
Proof.
  intros Hm Ho pm. subst pm.
  rewrite !get_placeholder_map_not_firm by assumption.
  split; [vm_compute; reflexivity|].
  split; [vm_compute; reflexivity|].
  intros v. unfold get_placeholder_map.
  rewrite placeholder_items_ignore_matter_number. reflexivity.
Qed.

Lemma matter_number_is_our_ref_witness :
  let pm := get_placeholder_map
              [ (u "our_ref", PStr (u "PDP/10011/001"));
                (u "matter_number", PStr (u "M-42")) ]
              load_firm_details in
  get pm (u "matter_number") = get pm (u "our_ref")
  /\ get pm (u "matter_number") = Some (PStr (u "PDP/10011/001")).
Proof.
  cbv zeta.
  destruct (matter_number_is_our_ref
              [ (u "our_ref", PStr (u "PDP/10011/001"));
                (u "matter_number", PStr (u "M-42")) ]
              load_firm_details eq_refl eq_refl) as (Hsame & Hval & _).
  split; [exact Hsame|].
  rewrite Hval. vm_compute; reflexivity.
Defined.

(** ** Parser: close-tag lines *)

Lemma close_tag_matches (closed : pystr) :
  In closed tag_names ->
  match_tag (u "[") (u "[/" ++ closed ++ u "]") = None
  /\ match_tag (u "[/") (u "[/" ++ closed ++ u "]") = Some closed.
Proof.
  unfold tag_names. cbn [In]. intros H.
  repeat (destruct H as [H|H]; [subst closed; split; vm_compute; reflexivity|]).
  contradiction.
Qed.

(** C8, as the program has it: on a line that, stripped, is the close tag
    of one of the ten block names, the buffered lines are flushed as an
    element of the open block when the buffer is not empty and the name is
    that of the open block, and otherwise stay in the buffer; in both cases
    the block tag is cleared and the current list type is cleared as well.
    That is the whole effect of the line on the state of the parser. *)
Theorem close_tag_line (st : parser_state) (raw closed : pystr) :
  In closed tag_names ->
  strip raw = u "[/" ++ closed ++ u "]" ->
  step st raw
  = (if nonempty (block_lines st) && tag_is (current_block_tag st) closed
     then Build_parser_state
            (flush_block (logical_elements st) (current_block_tag st)
               (block_lines st) (current_list_type st))
            None [] None
     else Build_parser_state (logical_elements st) None (block_lines st) None)
  /\ current_block_tag (step st raw) = None
  /\ current_list_type (step st raw) = None.
Proof.
  intros Hin Hline.
  destruct (close_tag_matches Hin) as [Hopen Hclose].
  unfold step. rewrite Hline, Hopen, Hclose.
  destruct (nonempty (block_lines st) && tag_is (current_block_tag st) closed);
    repeat split.
Qed.

Lemma close_tag_line_witness :
  let st := Build_parser_state [] (Some (u "a1")) [u "1. Item"] (Some Numbered) in
  step st (u "  [/a1] ")
  = Build_parser_state
      [Build_element numbered [u "1. Item"] (Some (u "a1")) (Some Numbered)]
      None [] None.
Proof.
  cbv zeta.
  rewrite (proj1 (close_tag_line
             (Build_parser_state [] (Some (u "a1")) [u "1. Item"] (Some Numbered))
             (u "  [/a1] ") (closed := u "a1")
             (or_intror (or_intror (or_introl eq_refl))) eq_refl)).
  vm_compute; reflexivity.
Defined.

(** C8, as stated, fails: a close-tag line also clears the current list
    type, which the effect worded in the specification leaves alone, and
    the later lines are classified accordingly: the line after the block
    is a general paragraph, not a numbered item. *)
Lemma close_tag_clears_list_type_counterexample :
  let st := Build_parser_state [] (Some (u "a1")) [u "1. Item"] (Some Numbered) in
  current_list_type (step st (u "[/a1]")) = None
  /\ current_list_type (close_tag_spec st (u "a1")) = Some Numbered
  /\ step st (u "[/a1]") <> close_tag_spec st (u "a1")
  /\ map type
       (preprocess_precedent
          (u "[a1]" ++ [10%N] ++ u "1. Item" ++ [10%N] ++ u "[/a1]"
           ++ [10%N] ++ u "Closing words") [])
     = [numbered; general_paragraph].
Proof.
  cbv zeta. repeat split; try (vm_compute; reflexivity).
  vm_compute. discriminate.
Qed.

(** * Further properties *)

(** ** Parser: what every parse keeps *)

(** A property of the state that every line keeps holds at the end of the
    scan. *)
Lemma fold_step_invariant (P : parser_state -> Prop) :
  (forall st raw, P st -> P (step st raw)) ->
  forall lines st, P st -> P (fold_left step lines st).
Proof.
  intros Hstep lines. induction lines as [|raw lines IH]; intros st H;
    [exact H|].
  cbn [fold_left]. apply IH, Hstep, H.
Qed.

(** The cases of one turn of the loop. *)
Ltac step_cases st raw :=
  unfold step; cbv zeta;
  destruct (match_tag (u "[") (strip raw)) as [?opened|] eqn:?Hopen;
  [ destruct (nonempty (block_lines st) && is_none (current_block_tag st))
      eqn:?Hflush
  | destruct (match_tag (u "[/") (strip raw)) as [?closed|] eqn:?Hclose;
    [ destruct (nonempty (block_lines st)
                && tag_is (current_block_tag st) closed) eqn:?Hflush
    | destruct (strip raw) as [|?c ?line] eqn:?Hline;
      [ destruct (nonempty (block_lines st)) eqn:?Hflush
      | destruct (determine_list_type (c :: line)) as [?new|] eqn:?Hnew;
        [ destruct (differs new (current_list_type st)) eqn:?Hdiff;
          [ destruct (nonempty (block_lines st)) eqn:?Hflush | ]
        | ] ] ] ];
  cbn [andb logical_elements current_block_tag block_lines current_list_type].

Lemma match_tag_in (opening line g : pystr) :
  match_tag opening line = Some g -> In g tag_names.
Proof.
  unfold match_tag. intros H. apply find_some in H. tauto.
Qed.

Lemma match_tag_nil (opening : pystr) :
  opening <> [] -> match_tag opening [] = None.
Proof.
  intros H. unfold match_tag.
  destruct opening as [|c o]; [congruence|]. reflexivity.
Qed.

Lemma existsb_eqb_in (k : pystr) (l : list pystr) :
  existsb (PyStr.eqb k) l = true <-> In k l.
Proof.
  rewrite existsb_exists. split.
  - intros (x & Hx & E). apply eqb_eq in E. subst. exact Hx.
  - intros H. exists k. split; [exact H | apply eqb_refl].
Qed.

(** *** The elements are well classified *)

Lemma flush_block_ok (els : list element) (tag : option pystr)
    (buf : list pystr) (lt : option list_kind) :
  forallb element_ok els = true ->
  forallb element_ok (flush_block els tag buf lt) = true.
Proof.
  intros H. unfold flush_block.
  destruct buf as [|first rest]; [exact H|].
  destruct (strip first) as [|c s] eqn:E.
  - rewrite forallb_app, H. reflexivity.
  - destruct (contains (c :: s) (u "<ins>")) eqn:Hins.
    + rewrite forallb_app, H. cbn [forallb andb element_ok type].
      unfold first_content. cbn [content_lines list_type is_none].
      rewrite E, Hins. reflexivity.
    + destruct (contains (c :: s) (u "[FEE_TABLE_PLACEHOLDER]")) eqn:Hfee.
      * rewrite forallb_app, H. cbn [forallb andb element_ok type].
        unfold first_content. cbn [content_lines list_type is_none].
        rewrite E, Hins, Hfee. reflexivity.
      * rewrite forallb_app, H.
        assert (Hplain : forall ty lt',
                   plain_first (Build_element ty (first :: rest) tag lt')
                   = true).
        { intros. unfold plain_first, first_content.
          cbn [content_lines]. rewrite E, Hins, Hfee. reflexivity. }
        destruct lt as [[| |]|]; cbn [forallb andb element_ok type type_of_list];
          rewrite Hplain; reflexivity.
Qed.

Lemma step_elements_ok (st : parser_state) (raw : pystr) :
  forallb element_ok (logical_elements st) = true ->
  forallb element_ok (logical_elements (step st raw)) = true.
Proof.
  intros H. step_cases st raw;
    try exact H; try (apply flush_block_ok; exact H);
    rewrite forallb_app; cbn [forallb andb];
    rewrite ?andb_true_r; try exact H; apply flush_block_ok; exact H.
Qed.

Lemma preprocess_elements_ok (content : pystr) (app_inputs : dict pyval) :
  forallb element_ok (preprocess_precedent content app_inputs) = true.
Proof.
  unfold preprocess_precedent.
  assert (H : forallb element_ok
                (logical_elements
                   (fold_left step (splitlines content) initial_state)) = true).
  { apply (fold_step_invariant
             (fun st => forallb element_ok (logical_elements st) = true)).
    - apply step_elements_ok.
    - reflexivity. }
  destruct (nonempty _); [apply flush_block_ok|]; exact H.
Qed.

Lemma list_type_is_eq (e : element) (l : list_kind) :
  list_type_is e l = true -> list_type e = Some l.
Proof.
  unfold list_type_is. destruct (list_type e) as [l'|]; [|discriminate].
  destruct l', l; (discriminate || reflexivity).
Qed.

Lemma is_none_eq {A : Type} (o : option A) : is_none o = true -> o = None.
Proof. destruct o; [discriminate | reflexivity]. Qed.

Lemma plain_first_facts (e : element) :
  plain_first e = true ->
  nonempty (first_content e) = true
  /\ contains (first_content e) (u "<ins>") = false
  /\ contains (first_content e) (u "[FEE_TABLE_PLACEHOLDER]") = false.
Proof.
  unfold plain_first. intros H.
  apply andb_true_iff in H as [H H3]. apply andb_true_iff in H as [H1 H2].
  apply negb_true_iff in H2, H3. auto.
Qed.

Lemma contains_nonempty (s p : pystr) :
  p <> [] -> contains s p = true -> nonempty s = true.
Proof.
  intros Hp H. destruct s; [|reflexivity].
  rewrite contains_nil_false in H by assumption. discriminate.
Qed.

Lemma first_content_nonempty (e : element) :
  nonempty (first_content e) = true -> content_lines e <> [].
Proof.
  unfold first_content. destruct (content_lines e); [discriminate|congruence].
Qed.

(** The type of a parsed element and its list type say the same: the list
    type is set exactly on the elements of the three list types, to the
    list type of that name. *)
Theorem parsed_list_type_matches_type (content : pystr)
    (app_inputs : dict pyval) :
  Forall
    (fun e =>
       list_type e
       = match type e with
         | numbered => Some Numbered
         | letter => Some Letter
         | roman => Some Roman
         | _ => None
         end)
    (preprocess_precedent content app_inputs).
Proof.
  apply Forall_forall. intros e He.
  pose proof (preprocess_elements_ok content app_inputs) as H.
  rewrite forallb_forall in H. specialize (H e He).
  unfold element_ok in H.
  destruct (type e); apply andb_true_iff in H as [H1 H2];
    auto using is_none_eq, list_type_is_eq.
Qed.

(** In every parse, an element is a heading exactly when its first line,
    stripped, holds the underline-open marker, and a fee table exactly when
    that line holds the fee-table sentinel and not the underline-open
    marker. *)
Theorem parsed_type_follows_first_line (content : pystr)
    (app_inputs : dict pyval) :
  Forall
    (fun e =>
       (type e = heading
        <-> contains (first_content e) (u "<ins>") = true)
       /\ (type e = fee_table
           <-> contains (first_content e) (u "<ins>") = false
               /\ contains (first_content e) (u "[FEE_TABLE_PLACEHOLDER]")
                  = true))
    (preprocess_precedent content app_inputs).
Proof.
  apply Forall_forall. intros e He.
  pose proof (preprocess_elements_ok content app_inputs) as H.
  rewrite forallb_forall in H. specialize (H e He).
  unfold element_ok in H.
  destruct (type e) eqn:Hty; apply andb_true_iff in H as [H1 H2].
  - apply negb_true_iff in H1.
    assert (E : first_content e = []).
    { unfold first_content. destruct (content_lines e); [reflexivity|].
      discriminate. }
    rewrite E. split; split; try discriminate.
    intros [_ F]. discriminate.
  - rewrite H1. split; split; try discriminate; auto.
    intros [F _]. discriminate.
  - apply andb_true_iff in H1 as [H0 H1]. apply negb_true_iff in H0.
    rewrite H0, H1. split; split; try discriminate; auto.
  - apply plain_first_facts in H1 as (_ & Hi & Hf). rewrite Hi, Hf.
    split; split; try discriminate. intros [_ F]. discriminate.
  - apply plain_first_facts in H1 as (_ & Hi & Hf). rewrite Hi, Hf.
    split; split; try discriminate. intros [_ F]. discriminate.
  - apply plain_first_facts in H1 as (_ & Hi & Hf). rewrite Hi, Hf.
    split; split; try discriminate. intros [_ F]. discriminate.
  - apply plain_first_facts in H1 as (_ & Hi & Hf). rewrite Hi, Hf.
    split; split; try discriminate. intros [_ F]. discriminate.
Qed.

(** In every parse, the elements without content lines are exactly the
    blank-line elements; the first line of any other element has text left
    when it is stripped, so the assembler never falls back on the empty
    content for an element that it renders. *)
Theorem parsed_content_empty_iff_blank (content : pystr)
    (app_inputs : dict pyval) :
  Forall
    (fun e =>
       (type e = blank_line <-> content_lines e = [])
       /\ (type e <> blank_line -> first_content e <> []))
    (preprocess_precedent content app_inputs).
Proof.
  apply Forall_forall. intros e He.
  pose proof (preprocess_elements_ok content app_inputs) as H.
  rewrite forallb_forall in H. specialize (H e He).
  unfold element_ok in H.
  assert (Hne : nonempty (first_content e) = true ->
                ((type e = blank_line -> content_lines e = [])
                 -> (type e = blank_line <-> content_lines e = []))
                /\ first_content e <> []).
  { intros Hn. split.
    - intros Hb. split; [exact Hb|].
      intros E. apply first_content_nonempty in Hn. contradiction.
    - intros E. rewrite E in Hn. discriminate. }
  destruct (type e) eqn:Hty; apply andb_true_iff in H as [H1 H2].
  - apply negb_true_iff in H1. split; [|congruence].
    split; [|reflexivity]. intros _.
    destruct (content_lines e); [reflexivity | discriminate].
  - apply contains_nonempty in H1; [|discriminate].
    destruct (Hne H1) as [Ha Hb]. split; [apply Ha; discriminate | auto].
  - apply andb_true_iff in H1 as [_ H1].
    apply contains_nonempty in H1; [|discriminate].
    destruct (Hne H1) as [Ha Hb]. split; [apply Ha; discriminate | auto].
  - apply plain_first_facts in H1 as (H1 & _).
    destruct (Hne H1) as [Ha Hb]. split; [apply Ha; discriminate | auto].
  - apply plain_first_facts in H1 as (H1 & _).
    destruct (Hne H1) as [Ha Hb]. split; [apply Ha; discriminate | auto].
  - apply plain_first_facts in H1 as (H1 & _).
    destruct (Hne H1) as [Ha Hb]. split; [apply Ha; discriminate | auto].
  - apply plain_first_facts in H1 as (H1 & _).
    destruct (Hne H1) as [Ha Hb]. split; [apply Ha; discriminate | auto].
Qed.

(** *** No line is lost, none is invented *)

Lemma flush_block_content (els : list element) (tag : option pystr)
    (buf : list pystr) (lt : option list_kind) :
  buffer_ok buf = true ->
  flat_map content_lines (flush_block els tag buf lt)
  = flat_map content_lines els ++ buf
  /\ filter is_blank_element (flush_block els tag buf lt)
     = filter is_blank_element els.
Proof.
  intros H. unfold flush_block.
  destruct buf as [|first rest]; [rewrite app_nil_r; auto|].
  cbn [buffer_ok forallb] in H. apply andb_true_iff in H as [H _].
  destruct (strip first) as [|c s]; [discriminate|].
  destruct (contains (c :: s) (u "<ins>"));
    [|destruct (contains (c :: s) (u "[FEE_TABLE_PLACEHOLDER]"));
      [|destruct lt as [[| |]|]]];
    rewrite flat_map_app, filter_app; cbn; rewrite !app_nil_r; auto.
Qed.

Lemma flush_block_lines (els : list element) (tag : option pystr)
    (buf : list pystr) (lt : option list_kind) :
  buffer_ok buf = true ->
  flat_map content_lines (flush_block els tag buf lt)
  = flat_map content_lines els ++ buf.
Proof. intros H. apply flush_block_content. exact H. Qed.

Lemma flush_block_blanks (els : list element) (tag : option pystr)
    (buf : list pystr) (lt : option list_kind) :
  buffer_ok buf = true ->
  filter is_blank_element (flush_block els tag buf lt)
  = filter is_blank_element els.
Proof. intros H. apply flush_block_content. exact H. Qed.

Lemma step_buffer_ok (st : parser_state) (raw : pystr) :
  buffer_ok (block_lines st) = true ->
  buffer_ok (block_lines (step st raw)) = true.
Proof.
  intros H. step_cases st raw; try exact H; try reflexivity;
    unfold buffer_ok; rewrite ?forallb_app; cbn [forallb app];
    rewrite ?Hline; cbn [nonempty andb]; try reflexivity;
    fold (buffer_ok (block_lines st)); rewrite H; reflexivity.
Qed.

(** The lines held by a state: those of its elements, then its buffer. *)
Lemma step_lines (st : parser_state) (raw : pystr) :
  buffer_ok (block_lines st) = true ->
  flat_map content_lines (logical_elements (step st raw))
  ++ block_lines (step st raw)
  = (flat_map content_lines (logical_elements st) ++ block_lines st)
    ++ (if is_content_line raw then [raw] else []).
Proof.
  intros H. unfold is_content_line. cbv zeta.
  step_cases st raw;
    rewrite ?flat_map_app;
    rewrite ?flush_block_lines by exact H;
    cbn [flat_map content_lines is_none nonempty andb app];
    rewrite ?app_nil_r, <- ?app_assoc; cbn [app]; try reflexivity.
  - destruct (block_lines st); [rewrite app_nil_r; reflexivity | discriminate].
Qed.

Lemma step_blanks (st : parser_state) (raw : pystr) :
  buffer_ok (block_lines st) = true ->
  filter is_blank_element (logical_elements (step st raw))
  = filter is_blank_element (logical_elements st)
    ++ (if is_blank raw
        then [Build_element blank_line [] (current_block_tag st) None]
        else []).
Proof.
  intros H. unfold is_blank.
  assert (Htag : forall opening g,
             opening <> [] ->
             match_tag opening (strip raw) = Some g ->
             nonempty (strip raw) = true).
  { intros opening g Ho Hm. destruct (strip raw); [|reflexivity].
    rewrite match_tag_nil in Hm by assumption. discriminate. }
  step_cases st raw;
    rewrite ?filter_app;
    rewrite ?flush_block_blanks by exact H;
    try (rewrite (Htag (u "[") opened) by (discriminate || assumption));
    try (rewrite (Htag (u "[/") closed) by (discriminate || assumption));
    cbn [negb nonempty filter is_blank_element type app];
    rewrite ?app_nil_r; reflexivity.
Qed.

Lemma fold_step_lines (lines : list pystr) :
  forall st,
    buffer_ok (block_lines st) = true ->
    let st' := fold_left step lines st in
    buffer_ok (block_lines st') = true
    /\ flat_map content_lines (logical_elements st') ++ block_lines st'
       = (flat_map content_lines (logical_elements st) ++ block_lines st)
         ++ filter is_content_line lines
    /\ List.length (filter is_blank_element (logical_elements st'))
       = (List.length (filter is_blank_element (logical_elements st))
          + List.length (filter is_blank lines))%nat.
Proof.
  induction lines as [|raw lines IH]; intros st H; cbv zeta.
  - cbn. rewrite !app_nil_r. auto.
  - cbn [fold_left filter].
    destruct (IH (step st raw) (step_buffer_ok st raw H)) as (Hb & Hl & Hn).
    split; [exact Hb|]. split.
    + rewrite Hl, (step_lines st raw H), <- app_assoc.
      destruct (is_content_line raw); reflexivity.
    + rewrite Hn, (step_blanks st raw H), length_app.
      destruct (is_blank raw); cbn [List.length]; lia.
Qed.

(** The parser keeps the lines of the template and their order: the
    content lines of the elements, one element after the other, are the
    lines of the template that are neither tag lines nor blank, each once
    and in the order of the template. *)
Theorem parsed_lines_preserved (content : pystr) (app_inputs : dict pyval) :
  flat_map content_lines (preprocess_precedent content app_inputs)
  = filter is_content_line (splitlines content).
Proof.
  unfold preprocess_precedent.
  destruct (fold_step_lines (splitlines content) initial_state eq_refl)
    as (Hb & Hl & _).
  cbv zeta in Hb, Hl. cbn [initial_state logical_elements block_lines
                           flat_map app] in Hl.
  destruct (block_lines (fold_left step (splitlines content) initial_state))
    eqn:E.
  - cbn [nonempty]. rewrite app_nil_r in Hl. exact Hl.
  - cbn [nonempty]. rewrite flush_block_lines by exact Hb. exact Hl.
Qed.

(** Every blank line of the template gives one blank-line element, and no
    other line gives any: the parse holds as many blank-line elements as
    the template has blank lines. *)
Theorem parsed_blank_lines_counted (content : pystr)
    (app_inputs : dict pyval) :
  List.length
    (filter is_blank_element (preprocess_precedent content app_inputs))
  = List.length (filter is_blank (splitlines content)).
Proof.
  unfold preprocess_precedent.
  destruct (fold_step_lines (splitlines content) initial_state eq_refl)
    as (Hb & _ & Hn).
  cbv zeta in Hb, Hn. cbn [initial_state logical_elements filter
                           List.length Nat.add] in Hn.
  destruct (nonempty _);
    [rewrite flush_block_blanks by exact Hb|]; exact Hn.
Qed.

(** *** Block tags *)

Lemma flush_block_tags (els : list element) (tag : option pystr)
    (buf : list pystr) (lt : option list_kind) :
  tag_ok tag = true ->
  forallb (fun e => tag_ok (block_tag e)) els = true ->
  forallb (fun e => tag_ok (block_tag e)) (flush_block els tag buf lt) = true.
Proof.
  intros Ht H. unfold flush_block.
  destruct buf as [|first rest]; [exact H|].
  destruct (strip first) as [|c s];
    [|destruct (contains (c :: s) (u "<ins>"));
      [|destruct (contains (c :: s) (u "[FEE_TABLE_PLACEHOLDER]"))]];
    rewrite forallb_app, H; cbn [forallb block_tag andb];
    rewrite Ht; reflexivity.
Qed.

Lemma match_tag_ok (opening line g : pystr) :
  match_tag opening line = Some g -> tag_ok (Some g) = true.
Proof.
  intros H. apply match_tag_in in H. apply existsb_eqb_in. exact H.
Qed.

Lemma step_tag_ok (st : parser_state) (raw : pystr) :
  tag_ok (current_block_tag st) = true ->
  tag_ok (current_block_tag (step st raw)) = true.
Proof.
  intros Ht.
  step_cases st raw; try exact Ht; try reflexivity;
    eapply match_tag_ok; eassumption.
Qed.

Lemma step_element_tags (st : parser_state) (raw : pystr) :
  tag_ok (current_block_tag st) = true ->
  forallb (fun e => tag_ok (block_tag e)) (logical_elements st) = true ->
  forallb (fun e => tag_ok (block_tag e)) (logical_elements (step st raw))
  = true.
Proof.
  intros Ht H.
  step_cases st raw; try exact H;
    try (apply flush_block_tags; [reflexivity || exact Ht | exact H]);
    rewrite forallb_app; cbn [forallb block_tag andb]; rewrite Ht;
    rewrite andb_true_r; try exact H;
    apply flush_block_tags; [exact Ht | exact H].
Qed.

Lemma step_tags (st : parser_state) (raw : pystr) :
  tag_ok (current_block_tag st) = true
  /\ forallb (fun e => tag_ok (block_tag e)) (logical_elements st) = true ->
  tag_ok (current_block_tag (step st raw)) = true
  /\ forallb (fun e => tag_ok (block_tag e)) (logical_elements (step st raw))
     = true.
Proof.
  intros [Ht H]. split;
    [apply step_tag_ok | apply step_element_tags]; assumption.
Qed.

(** The block tag of every parsed element is absent or one of the ten
    block names, so the assembler never meets a tag that its visibility
    rule does not know. *)
Theorem parsed_tags_known (content : pystr) (app_inputs : dict pyval) :
  Forall
    (fun e =>
       match block_tag e with
       | None => True
       | Some tag => In tag tag_names
       end)
    (preprocess_precedent content app_inputs).
Proof.
  assert (H : forallb (fun e => tag_ok (block_tag e))
                (preprocess_precedent content app_inputs) = true).
  { unfold preprocess_precedent.
    destruct (fold_step_invariant
                (fun st =>
                   tag_ok (current_block_tag st) = true
                   /\ forallb (fun e => tag_ok (block_tag e))
                        (logical_elements st) = true)
                step_tags (splitlines content) initial_state
                (conj eq_refl eq_refl)) as [Ht He].
    destruct (nonempty _); [apply flush_block_tags|]; assumption. }
  apply Forall_forall. intros e He.
  rewrite forallb_forall in H. specialize (H e He).
  destruct (block_tag e) as [tag|]; [|exact I].
  apply existsb_eqb_in. exact H.
Qed.

(** *** Open-tag lines and the list type *)

Lemma open_tag_matches (opened : pystr) :
  In opened tag_names ->
  match_tag (u "[") (u "[" ++ opened ++ u "]") = Some opened.
Proof.
  unfold tag_names. cbn [In]. intros H.
  repeat (destruct H as [H|H]; [subst opened; vm_compute; reflexivity|]).
  contradiction.
Qed.

(** The turn of the loop on a line that, stripped, is the open tag of one
    of the ten block names. *)
Lemma step_open_tag (st : parser_state) (raw opened : pystr) :
  In opened tag_names ->
  strip raw = u "[" ++ opened ++ u "]" ->
  step st raw
  = if nonempty (block_lines st) && is_none (current_block_tag st)
    then Build_parser_state
           (flush_block (logical_elements st) None (block_lines st)
              (current_list_type st))
           (Some opened) [] (current_list_type st)
    else Build_parser_state (logical_elements st) (Some opened)
           (block_lines st) (current_list_type st).
Proof.
  intros Hin Hline. unfold step. rewrite Hline, (open_tag_matches Hin).
  reflexivity.
Qed.

Lemma determine_list_type_nil : determine_list_type [] = None.
Proof. reflexivity. Qed.

Lemma step_list_type (st : parser_state) (raw : pystr) :
  current_list_type (step st raw)
  = if is_some (match_tag (u "[") (strip raw)) then current_list_type st
    else if is_some (match_tag (u "[/") (strip raw)) then None
    else match determine_list_type (strip raw) with
         | Some l => Some l
         | None => current_list_type st
         end.
Proof.
  step_cases st raw; cbn [is_some]; rewrite ?Hnew; try reflexivity.
  destruct (current_list_type st) as [l|]; [|discriminate].
  cbn [differs] in Hdiff. apply negb_false_iff in Hdiff.
  destruct new, l; (discriminate || reflexivity).
Qed.

(** The list type is changed by two kinds of line only: a close tag clears
    it, and a line that starts with a list marker sets it to the type of
    that marker.  Every other line, a blank line among them, leaves it, so
    the lines that follow a list item are typed as list items of its type
    for as long as no close tag and no other marker is met. *)
Theorem list_type_persists (st : parser_state) (raw : pystr)
    (lines : list pystr) :
  current_list_type (step st raw)
  = (if is_some (match_tag (u "[") (strip raw)) then current_list_type st
     else if is_some (match_tag (u "[/") (strip raw)) then None
     else match determine_list_type (strip raw) with
          | Some l => Some l
          | None => current_list_type st
          end)
  /\ (forallb keeps_list_type lines = true ->
      current_list_type (fold_left step lines st) = current_list_type st).
Proof.
  split; [apply step_list_type|].
  revert st. induction lines as [|l lines IH]; intros st H; [reflexivity|].
  cbn [forallb] in H. apply andb_true_iff in H as [Hl H].
  cbn [fold_left]. rewrite IH by exact H. rewrite step_list_type.
  unfold keeps_list_type in Hl. apply andb_true_iff in Hl as [Hc Hd].
  apply is_none_eq in Hc, Hd. rewrite Hc, Hd.
  destruct (is_some _); reflexivity.
Qed.

Lemma list_type_persists_witness :
  let st := Build_parser_state [] None [u "1. First item"] (Some Numbered) in
  let lines := [u ""; u "A paragraph after the list"; u "[indiv]"] in
  current_list_type (fold_left step lines st) = Some Numbered
  /\ map type (logical_elements (fold_left step (lines ++ [u ""]) st))
     = [numbered; blank_line; numbered; blank_line].
Proof.
  cbv zeta. split; [|vm_compute; reflexivity].
  apply (proj2 (list_type_persists
                  (Build_parser_state [] None [u "1. First item"]
                     (Some Numbered))
                  (u "")
                  [u ""; u "A paragraph after the list"; u "[indiv]"])).
  vm_compute; reflexivity.
Defined.

(** ** Renderer: splitting and the text of the runs *)

Lemma startswith_app (p s : pystr) :
  startswith s p = true -> exists rest, s = p ++ rest.
Proof.
  revert s. induction p as [|d p IH]; intros s H.
  - exists s. reflexivity.
  - destruct s as [|c s]; [discriminate|]. cbn in H.
    apply andb_true_iff in H as [Hc H]. apply N.eqb_eq in Hc. subst d.
    destruct (IH s H) as [rest ->]. exists rest. reflexivity.
Qed.

Lemma marker_found (s m : pystr) :
  find (startswith s) markers = Some m ->
  exists c m' rest, m = c :: m' /\ s = c :: m' ++ rest.
Proof.
  intros H. apply find_some in H as [Hin Hs].
  apply startswith_app in Hs as [rest ->].
  unfold markers in Hin. cbn [In] in Hin.
  repeat (destruct Hin as [Hin|Hin];
          [subst m; do 3 eexists; split; reflexivity|]).
  contradiction.
Qed.

Lemma skipn_length_app {A : Type} (l rest : list A) :
  skipn (List.length l) (l ++ rest) = rest.
Proof. induction l; [reflexivity | assumption]. Qed.

Lemma concat_re_split_from (s : pystr) :
  forall skip cur,
    List.concat (re_split_from skip cur s) = rev cur ++ skipn skip s.
Proof.
  induction s as [|c s IH]; intros skip cur.
  - cbn. rewrite skipn_nil. reflexivity.
  - destruct skip as [|k]; cbn [re_split_from skipn]; [|apply IH].
    destruct (find (startswith (c :: s)) markers) as [m|] eqn:Hm.
    + apply marker_found in Hm as (c' & m' & rest & -> & E).
      injection E as <- ->.
      cbn [List.concat List.length Nat.sub]. rewrite Nat.sub_0_r, IH.
      rewrite skipn_length_app. reflexivity.
    + rewrite IH. cbn [rev skipn]. rewrite <- app_assoc. reflexivity.
Qed.

(** Splitting a line on the markers loses nothing: the parts, put one
    after the other, give the line back. *)
Theorem re_split_concat (s : pystr) : List.concat (re_split s) = s.
Proof. unfold re_split. rewrite concat_re_split_from. reflexivity. Qed.

(** *** The characters of the texts *)

Section Characters.

Variable P : N -> bool.

Lemma all_rev (s : pystr) : forallb P s = true -> forallb P (rev s) = true.
Proof.
  intros H. apply forallb_forall. intros c Hc. apply in_rev in Hc.
  rewrite forallb_forall in H. auto.
Qed.

Lemma all_lstrip (s : pystr) :
  forallb P s = true -> forallb P (lstrip s) = true.
Proof.
  induction s as [|c s IH]; intros H; [reflexivity|].
  cbn [lstrip]. destruct (isspace c); [|exact H].
  cbn [forallb] in H. apply andb_true_iff in H as [_ H]. auto.
Qed.

Lemma all_strip (s : pystr) :
  forallb P s = true -> forallb P (strip s) = true.
Proof.
  intros H. unfold strip, rstrip.
  apply all_rev, all_lstrip, all_rev, all_lstrip, H.
Qed.

Lemma all_replace_from (old new : pystr) :
  forallb P new = true ->
  forall s k,
    forallb P s = true -> forallb P (replace_from old new k s) = true.
Proof.
  intros Hnew s. induction s as [|c s IH]; intros k H; [reflexivity|].
  cbn [forallb] in H. apply andb_true_iff in H as [Hc Hs].
  cbn [replace_from]. destruct k as [|k]; [|apply IH; exact Hs].
  destruct (startswith (c :: s) old).
  - rewrite forallb_app, Hnew. cbn [andb]. apply IH; exact Hs.
  - cbn [forallb]. rewrite Hc. cbn [andb]. apply IH; exact Hs.
Qed.

Lemma all_replace (s old new : pystr) :
  forallb P s = true ->
  forallb P new = true ->
  forallb P (replace s old new) = true.
Proof.
  intros Hs Hnew. unfold replace. destruct old as [|d old].
  - rewrite forallb_app, Hnew. cbn [andb].
    induction s as [|c s IH]; [reflexivity|].
    cbn [forallb] in Hs. apply andb_true_iff in Hs as [Hc Hs].
    cbn [flat_map app forallb]. rewrite Hc, forallb_app, Hnew.
    cbn [andb]. apply IH; exact Hs.
  - apply all_replace_from; assumption.
Qed.

Lemma all_concat (l : list pystr) :
  forallb P (List.concat l) = forallb (forallb P) l.
Proof.
  induction l as [|x l IH]; [reflexivity|].
  cbn [List.concat forallb]. rewrite forallb_app, IH. reflexivity.
Qed.

Lemma all_re_split (s : pystr) :
  forallb P s = true -> forallb (forallb P) (re_split s) = true.
Proof.
  intros H. rewrite <- all_concat. unfold re_split.
  rewrite concat_re_split_from. exact H.
Qed.

Lemma all_substitute (pm : dict pyval) :
  forallb (fun kv => forallb P (str (snd kv))) pm = true ->
  forall text,
    forallb P text = true -> forallb P (substitute pm text) = true.
Proof.
  induction pm as [|[k v] pm IH]; intros Hpm text H; [exact H|].
  cbn [forallb snd] in Hpm. apply andb_true_iff in Hpm as [Hv Hpm].
  rewrite substitute_cons. apply (IH Hpm).
  apply all_replace; assumption.
Qed.

Lemma all_splitlines_from (n : nat) :
  forall s,
    (List.length s <= n)%nat ->
    forallb P s = true ->
    forall cur,
      forallb P cur = true ->
      forallb (forallb P) (splitlines_from cur s) = true.
Proof.
  induction n as [|n IH]; intros s Hn H cur Hcur.
  - destruct s; [|cbn in Hn; lia].
    cbn. destruct cur; [reflexivity|].
    cbn [forallb]. rewrite (all_rev _ Hcur). reflexivity.
  - destruct s as [|c s].
    { cbn. destruct cur; [reflexivity|].
      cbn [forallb]. rewrite (all_rev _ Hcur). reflexivity. }
    cbn [forallb] in H. apply andb_true_iff in H as [Hc Hs].
    cbn [List.length] in Hn.
    cbn [splitlines_from]. destruct (is_linebreak c).
    + destruct s as [|d s].
      { cbn [forallb]. rewrite (all_rev _ Hcur). reflexivity. }
      cbn [forallb] in Hs. apply andb_true_iff in Hs as [Hd Hs'].
      cbn [List.length] in Hn.
      destruct ((c =? 13)%N && (d =? 10)%N);
        cbn [forallb]; rewrite (all_rev _ Hcur); cbn [andb];
        apply IH; try reflexivity; cbn [List.length forallb]; try lia;
        try assumption.
      rewrite Hd, Hs'. reflexivity.
    + apply IH; [lia | exact Hs |]. cbn [forallb]. rewrite Hc, Hcur.
      reflexivity.
Qed.

Lemma all_splitlines (s : pystr) :
  forallb P s = true -> forallb (forallb P) (splitlines s) = true.
Proof.
  intros H. unfold splitlines.
  apply (all_splitlines_from (n := List.length s)); auto.
Qed.

Lemma all_or_line_feed (s : pystr) :
  forallb P s = true -> forallb (or_line_feed P) s = true.
Proof.
  intros H. apply forallb_forall. intros c Hc.
  rewrite forallb_forall in H. unfold or_line_feed. rewrite (H c Hc).
  reflexivity.
Qed.

End Characters.

Section RunCharacters.

Variable P : N -> bool.

(** The pieces between the line feeds of a text hold no line feed. *)
Lemma all_split_nl_from (s : pystr) :
  forallb (or_line_feed P) s = true ->
  forall cur,
    forallb P cur = true ->
    forallb (forallb P) (split_nl_from cur s) = true.
Proof.
  induction s as [|c s IH]; intros H cur Hcur.
  - cbn. rewrite all_rev by exact Hcur. reflexivity.
  - cbn [forallb] in H. apply andb_true_iff in H as [Hc Hs].
    cbn [split_nl_from]. destruct (c =? 10)%N eqn:E.
    + cbn [forallb]. rewrite all_rev by exact Hcur. apply (IH Hs). reflexivity.
    + apply (IH Hs). cbn [forallb]. rewrite Hcur.
      unfold or_line_feed in Hc. rewrite E, orb_false_r in Hc.
      rewrite Hc. reflexivity.
Qed.

Lemma line_runs_chars (b ul : bool) (ls : list pystr) :
  forallb (forallb P) ls = true ->
  forall i, forallb (run_chars P) (line_runs i ls b ul) = true.
Proof.
  induction ls as [|l ls IH]; intros H i; [reflexivity|].
  cbn [forallb] in H. apply andb_true_iff in H as [Hl Hls].
  cbn [line_runs]. rewrite forallb_app. cbn [forallb run_chars].
  rewrite Hl, (IH Hls). destruct (0 <? i)%nat; reflexivity.
Qed.

Lemma render_parts_chars (parts : list pystr) :
  forallb (forallb (or_line_feed P)) parts = true ->
  forall b ul, forallb (run_chars P) (render_parts parts b ul) = true.
Proof.
  induction parts as [|part parts IH]; intros H b ul; [reflexivity|].
  cbn [forallb] in H. apply andb_true_iff in H as [Hp H].
  destruct part as [|c part]; [apply (IH H)|].
  cbn [render_parts].
  destruct (PyStr.eqb (c :: part) (u "<bd>")); [apply (IH H)|].
  destruct (PyStr.eqb (c :: part) (u "</bd>")); [apply (IH H)|].
  destruct (PyStr.eqb (c :: part) (u "<ins>")); [apply (IH H)|].
  destruct (PyStr.eqb (c :: part) (u "</ins>")); [apply (IH H)|].
  rewrite forallb_app, (IH H), andb_true_r.
  apply line_runs_chars. unfold split_nl.
  apply all_split_nl_from; [exact Hp | reflexivity].
Qed.

(** The texts of the runs of a line hold no line feed, and no character
    that the line after substitution does not hold. *)
Lemma formatted_runs_chars (text : pystr) (pm : dict pyval) :
  forallb (or_line_feed P) (substitute pm text) = true ->
  forallb (run_chars P) (formatted_runs text pm) = true.
Proof.
  intros H. unfold formatted_runs.
  apply render_parts_chars, all_re_split, H.
Qed.

End RunCharacters.

Lemma runs_text_app (rs rs' : list run) :
  runs_text (rs ++ rs') = runs_text rs ++ runs_text rs'.
Proof. unfold runs_text. rewrite map_app, concat_app. reflexivity. Qed.

Lemma line_runs_text (b ul : bool) (s : pystr) :
  forall cur i,
    runs_text (line_runs i (split_nl_from cur s) b ul)
    = (if (0 <? i)%nat then [10%N] else []) ++ rev cur ++ s.
Proof.
  induction s as [|c s IH]; intros cur i.
  - cbn [split_nl_from line_runs]. rewrite runs_text_app.
    destruct i; cbn; rewrite !app_nil_r; reflexivity.
  - cbn [split_nl_from]. destruct (c =? 10)%N eqn:Hc.
    + apply N.eqb_eq in Hc. subst c.
      cbn [line_runs]. rewrite runs_text_app.
      change (runs_text (Run (rev cur) b ul (u "Arial") (Pt 11)
                           :: line_runs (S i) (split_nl_from [] s) b ul))
        with (rev cur
              ++ runs_text (line_runs (S i) (split_nl_from [] s) b ul)).
      rewrite IH. destruct i; reflexivity.
    + rewrite IH. cbn [rev]. rewrite <- !app_assoc. reflexivity.
Qed.

Lemma render_parts_runs_text (parts : list pystr) :
  forall b ul,
    runs_text (render_parts parts b ul)
    = List.concat (filter (fun p => negb (is_marker p)) parts).
Proof.
  induction parts as [|part parts IH]; intros b ul; [reflexivity|].
  destruct part as [|c part]; [apply IH|].
  cbn [render_parts filter]. unfold is_marker, markers. cbn [existsb].
  destruct (PyStr.eqb (c :: part) (u "<bd>")); [apply IH|].
  destruct (PyStr.eqb (c :: part) (u "</bd>")); [apply IH|].
  destruct (PyStr.eqb (c :: part) (u "<ins>")); [apply IH|].
  destruct (PyStr.eqb (c :: part) (u "</ins>")); [apply IH|].
  cbn [orb negb List.concat]. rewrite runs_text_app, IH.
  unfold split_nl. rewrite line_runs_text. reflexivity.
Qed.

(** For a line that, after substitution, holds besides line feeds only
    characters that the document library stores as they are: the texts
    handed to [add_run], with a line feed for each break, put one after the
    other, are the parts of the substituted line that are not markers, so
    the markers are taken out and nothing else is changed; and each text
    handed over is itself made of characters that are stored as they are,
    so the paragraph shows it unchanged. *)
Theorem formatted_runs_text (text_line : pystr)
    (placeholder_map : dict pyval) :
  forallb (or_line_feed stored_as_is) (substitute placeholder_map text_line)
  = true ->
  runs_text (formatted_runs text_line placeholder_map)
  = List.concat
      (filter (fun p => negb (is_marker p))
         (re_split (substitute placeholder_map text_line)))
  /\ forallb (run_chars stored_as_is)
       (formatted_runs text_line placeholder_map) = true.
Proof.
  intros H. split.
  - unfold formatted_runs. apply render_parts_runs_text.
  - apply formatted_runs_chars. exact H.
Qed.

Lemma formatted_runs_text_witness :
  let pm := [(u "qu3_timescales", PStr (u "two weeks" ++ [10%N] ++ u "or four"))] in
  runs_text (formatted_runs (u "<bd>Time:</bd> {qu3_timescales}") pm)
  = u "Time: two weeks" ++ [10%N] ++ u "or four"
  /\ forallb (run_chars stored_as_is)
       (formatted_runs (u "<bd>Time:</bd> {qu3_timescales}") pm) = true.
Proof.
  cbv zeta.
  destruct (formatted_runs_text (u "<bd>Time:</bd> {qu3_timescales}")
              [(u "qu3_timescales",
                 PStr (u "two weeks" ++ [10%N] ++ u "or four"))])
    as [Htext Hchars]; [vm_compute; reflexivity|].
  split; [rewrite Htext; vm_compute; reflexivity | exact Hchars].
Defined.

Lemma has_cons_false (c d : N) (s : pystr) :
  has c (d :: s) = false -> (d =? c)%N = false /\ has c s = false.
Proof.
  unfold has. cbn [existsb]. intros H.
  apply orb_false_iff in H as [H1 H2]. rewrite N.eqb_sym. auto.
Qed.

Lemma find_marker_none (c : N) (s : pystr) :
  (c =? 60)%N = false -> find (startswith (c :: s)) markers = None.
Proof.
  intros H. unfold markers. cbn [find]. unfold u. cbn [utf8_decode].
  cbn. rewrite H. reflexivity.
Qed.

Lemma re_split_from_plain (s : pystr) :
  has 60 s = false ->
  forall cur, re_split_from 0 cur s = [rev cur ++ s].
Proof.
  induction s as [|c s IH]; intros H cur.
  - cbn. rewrite app_nil_r. reflexivity.
  - apply has_cons_false in H as [Hc H].
    cbn [re_split_from]. rewrite (find_marker_none c s Hc), (IH H).
    cbn [rev]. rewrite <- app_assoc. reflexivity.
Qed.

Lemma split_nl_from_plain (s : pystr) :
  has 10 s = false ->
  forall cur, split_nl_from cur s = [rev cur ++ s].
Proof.
  induction s as [|c s IH]; intros H cur.
  - cbn. rewrite app_nil_r. reflexivity.
  - apply has_cons_false in H as [Hc H].
    cbn [split_nl_from]. rewrite Hc, (IH H).
    cbn [rev]. rewrite <- app_assoc. reflexivity.
Qed.

Lemma not_marker_plain (c : N) (s : pystr) :
  (c =? 60)%N = false -> is_marker (c :: s) = false.
Proof.
  intros H. unfold is_marker, markers. cbn [existsb].
  unfold u. cbn [utf8_decode]. cbn. rewrite H. reflexivity.
Qed.

Lemma stored_as_is_no_line_feed (s : pystr) :
  forallb stored_as_is s = true -> has 10 s = false.
Proof.
  induction s as [|c s IH]; intros H; [reflexivity|].
  cbn [forallb] in H. apply andb_true_iff in H as [Hc Hs].
  unfold has. cbn [existsb]. fold (has 10 s). rewrite (IH Hs), orb_false_r.
  destruct (10 =? c)%N eqn:E; [|reflexivity].
  apply N.eqb_eq in E. subst c. discriminate.
Qed.

(** A line without markup is one plain run: when the line is not empty,
    holds no "<" and no token of the map, and is made of characters that
    the document library stores as they are (so that it holds no line
    feed, tab, carriage return or control character), the program makes
    exactly one call of [add_run], with the whole line as its text, neither
    bold nor underlined. *)
Theorem plain_line_single_run (text_line : pystr)
    (placeholder_map : dict pyval) :
  nonempty text_line = true ->
  has 60 text_line = false ->
  forallb stored_as_is text_line = true ->
  token_free placeholder_map text_line = true ->
  formatted_runs text_line placeholder_map
  = [Run text_line false false (u "Arial") (Pt 11)].
Proof.
  intros Hne Hlt Hstored Hfree.
  pose proof (stored_as_is_no_line_feed _ Hstored) as Hnl.
  unfold formatted_runs.
  rewrite (substitute_unchanged _ _ Hfree).
  unfold re_split. rewrite (re_split_from_plain _ Hlt). cbn [rev app].
  destruct text_line as [|c s]; [discriminate|].
  pose proof (has_cons_false _ _ _ Hlt) as [Hc _].
  pose proof (not_marker_plain c s Hc) as Hm.
  unfold is_marker, markers in Hm. cbn [existsb] in Hm.
  repeat (apply orb_false_iff in Hm; destruct Hm as [? Hm]).
  cbn [render_parts].
  repeat match goal with
         | E : PyStr.eqb _ _ = false |- _ => rewrite E; clear E
         end.
  unfold split_nl. rewrite (split_nl_from_plain _ Hnl). reflexivity.
Qed.

Lemma plain_line_single_run_witness :
  formatted_runs (u "Yours sincerely")
    (get_placeholder_map [] load_firm_details)
  = [text_run "Yours sincerely" false false].
Proof.
  apply (plain_line_single_run (u "Yours sincerely")
           (get_placeholder_map [] load_firm_details));
    vm_compute; reflexivity.
Defined.

(** *** Formatting needs a marker *)

Lemma startswith_prefix (p rest : pystr) : startswith (p ++ rest) p = true.
Proof.
  induction p as [|d p IH]; [reflexivity|].
  cbn. rewrite N.eqb_refl. exact IH.
Qed.

Lemma contains_middle (a p b : pystr) : contains (a ++ p ++ b) p = true.
Proof.
  induction a as [|c a IH].
  - cbn [app]. destruct (p ++ b) eqn:E; cbn [contains];
      rewrite <- E, startswith_prefix; reflexivity.
  - cbn [app contains]. rewrite IH. apply orb_true_r.
Qed.

Lemma in_concat_contains (p : pystr) (parts : list pystr) :
  In p parts -> contains (List.concat parts) p = true.
Proof.
  intros H. apply in_split in H as (l1 & l2 & ->).
  rewrite concat_app. cbn [List.concat]. apply contains_middle.
Qed.

Lemma carries_not_bold (ul : bool) (rs : list run) :
  Forall (carries false ul) rs -> Forall not_bold rs.
Proof.
  apply Forall_impl. intros [t b ul' n z|]; cbn; tauto.
Qed.

Lemma carries_not_underlined (b : bool) (rs : list run) :
  Forall (carries b false) rs -> Forall not_underlined rs.
Proof.
  apply Forall_impl. intros [t b' ul n z|]; cbn; tauto.
Qed.

Lemma render_parts_not_bold (parts : list pystr) :
  ~ In (u "<bd>") parts ->
  forall ul, Forall not_bold (render_parts parts false ul).
Proof.
  induction parts as [|part parts IH]; intros Hn ul; [constructor|].
  assert (Hn' : ~ In (u "<bd>") parts) by (intros F; apply Hn; right; exact F).
  destruct part as [|c part]; [apply IH; exact Hn'|].
  cbn [render_parts].
  destruct (PyStr.eqb (c :: part) (u "<bd>")) eqn:E.
  { apply eqb_eq in E. exfalso. apply Hn. left. exact E. }
  destruct (PyStr.eqb (c :: part) (u "</bd>")); [apply IH; exact Hn'|].
  destruct (PyStr.eqb (c :: part) (u "<ins>")); [apply IH; exact Hn'|].
  destruct (PyStr.eqb (c :: part) (u "</ins>")); [apply IH; exact Hn'|].
  apply Forall_app. split; [|apply IH; exact Hn'].
  apply (carries_not_bold (ul := ul)), line_runs_carry.
Qed.

Lemma render_parts_not_underlined (parts : list pystr) :
  ~ In (u "<ins>") parts ->
  forall b, Forall not_underlined (render_parts parts b false).
Proof.
  induction parts as [|part parts IH]; intros Hn b; [constructor|].
  assert (Hn' : ~ In (u "<ins>") parts) by (intros F; apply Hn; right; exact F).
  destruct part as [|c part]; [apply IH; exact Hn'|].
  cbn [render_parts].
  destruct (PyStr.eqb (c :: part) (u "<bd>")); [apply IH; exact Hn'|].
  destruct (PyStr.eqb (c :: part) (u "</bd>")); [apply IH; exact Hn'|].
  destruct (PyStr.eqb (c :: part) (u "<ins>")) eqn:E.
  { apply eqb_eq in E. exfalso. apply Hn. left. exact E. }
  destruct (PyStr.eqb (c :: part) (u "</ins>")); [apply IH; exact Hn'|].
  apply Forall_app. split; [|apply IH; exact Hn'].
  apply (carries_not_underlined (b := b)), line_runs_carry.
Qed.

Lemma not_in_re_split (s m : pystr) :
  contains s m = false -> ~ In m (re_split s).
Proof.
  intros H F. apply in_concat_contains in F. unfold re_split in F.
  rewrite concat_re_split_from in F. cbn [rev app skipn] in F.
  congruence.
Qed.

(** Nothing is bold without a bold-open marker, nothing underlined without
    an underline-open marker: when the line, after substitution, does not
    hold the marker, no run of the line has the format. *)
Theorem formatting_needs_marker (text_line : pystr)
    (placeholder_map : dict pyval) :
  (contains (substitute placeholder_map text_line) (u "<bd>") = false ->
   Forall not_bold (formatted_runs text_line placeholder_map))
  /\ (contains (substitute placeholder_map text_line) (u "<ins>") = false ->
      Forall not_underlined (formatted_runs text_line placeholder_map)).
Proof.
  unfold formatted_runs. split; intros H.
  - apply render_parts_not_bold, not_in_re_split, H.
  - apply render_parts_not_underlined, not_in_re_split, H.
Qed.

Lemma formatting_needs_marker_witness :
  let pm := get_placeholder_map [(u "client_salutation", PStr (u "Mr. Smith"))]
              load_firm_details in
  Forall not_bold (formatted_runs (u "Dear {client_salutation}</bd>,") pm)
  /\ Forall not_underlined
       (formatted_runs (u "Dear {client_salutation}</bd>,") pm).
Proof.
  cbv zeta.
  destruct (formatting_needs_marker (u "Dear {client_salutation}</bd>,")
              (get_placeholder_map
                 [(u "client_salutation", PStr (u "Mr. Smith"))]
                 load_firm_details)) as [Hb Hu].
  split; [apply Hb | apply Hu]; vm_compute; reflexivity.
Defined.

(** ** Input sanitising *)

Lemma has_app (c : N) (a b : pystr) : has c (a ++ b) = has c a || has c b.
Proof. unfold has. apply existsb_app. Qed.

Lemma replace_from_keeps_absent (c : N) (old new : pystr) :
  has c new = false ->
  forall s k, has c s = false -> has c (replace_from old new k s) = false.
Proof.
  intros Hnew s. induction s as [|a s IH]; intros k H; [reflexivity|].
  pose proof (has_cons_false _ _ _ H) as [Ha Hs].
  cbn [replace_from]. destruct k as [|k]; [|apply IH; exact Hs].
  destruct (startswith (a :: s) old).
  - rewrite has_app, Hnew, (IH _ Hs). reflexivity.
  - unfold has. cbn [existsb]. rewrite N.eqb_sym, Ha.
    apply (IH _ Hs).
Qed.

Lemma replace_keeps_absent (c d : N) (s old new : pystr) :
  has c new = false ->
  has c s = false ->
  has c (replace s (d :: old) new) = false.
Proof. intros Hnew Hs. apply replace_from_keeps_absent; assumption. Qed.

Lemma replace_char_removed (c : N) (s new : pystr) :
  has c new = false -> has c (replace s [c] new) = false.
Proof.
  intros Hnew. unfold replace.
  induction s as [|a s IH]; [reflexivity|].
  cbn [replace_from startswith List.length Nat.sub].
  destruct (a =? c)%N eqn:E; cbn [andb].
  - rewrite has_app, Hnew, IH. reflexivity.
  - unfold has. cbn [existsb]. rewrite N.eqb_sym, E. exact IH.
Qed.

Lemma has_false_contains (c : N) (s m : pystr) :
  has c s = false -> contains s (c :: m) = false.
Proof.
  induction s as [|a s IH]; intros H; [reflexivity|].
  pose proof (has_cons_false _ _ _ H) as [Ha Hs].
  cbn [contains startswith]. rewrite Ha, (IH Hs). reflexivity.
Qed.

Lemma html_escape_has_no (s : pystr) :
  has 60 (html_escape s) = false
  /\ has 62 (html_escape s) = false
  /\ has 34 (html_escape s) = false
  /\ has 39 (html_escape s) = false.
Proof.
  unfold html_escape. cbv zeta.
  set (s1 := replace s (u "&") (u "&amp;")).
  set (s2 := replace s1 (u "<") (u "&lt;")).
  set (s3 := replace s2 (u ">") (u "&gt;")).
  set (s4 := replace s3 [34%N] (u "&quot;")).
  assert (H2 : has 60 s2 = false)
    by (apply (replace_char_removed 60 s1); reflexivity).
  assert (H3 : has 60 s3 = false /\ has 62 s3 = false).
  { split.
    - apply (replace_keeps_absent 60 62 s2 []); [reflexivity | exact H2].
    - apply (replace_char_removed 62 s2); reflexivity. }
  assert (H4 : has 60 s4 = false /\ has 62 s4 = false /\ has 34 s4 = false).
  { destruct H3 as [Ha Hb]. repeat split.
    - apply (replace_keeps_absent 60 34 s3 []); [reflexivity | exact Ha].
    - apply (replace_keeps_absent 62 34 s3 []); [reflexivity | exact Hb].
    - apply (replace_char_removed 34 s3); reflexivity. }
  destruct H4 as (Ha & Hb & Hc). repeat split.
  - apply (replace_keeps_absent 60 39 s4 []); [reflexivity | exact Ha].
  - apply (replace_keeps_absent 62 39 s4 []); [reflexivity | exact Hb].
  - apply (replace_keeps_absent 34 39 s4 []); [reflexivity | exact Hc].
  - apply (replace_char_removed 39 s4); reflexivity.
Qed.

(** A sanitised input holds no less-than sign, no greater-than sign and no
    quote, whatever the input was, and therefore none of the four markup
    markers. *)
Theorem sanitized_has_no_markup (text : pyval) :
  has 60 (sanitize_input text) = false
  /\ has 62 (sanitize_input text) = false
  /\ has 34 (sanitize_input text) = false
  /\ has 39 (sanitize_input text) = false
  /\ Forall (fun m => contains (sanitize_input text) m = false) markers.
Proof.
  unfold sanitize_input.
  destruct (html_escape_has_no (str text)) as (H1 & H2 & H3 & H4).
  repeat split; try assumption.
  unfold markers. repeat constructor;
    apply (has_false_contains 60); exact H1.
Qed.

(** Sanitising leaves alone a text that holds none of the five characters
    it replaces; the braces of a placeholder token are not among them, so a
    token typed into an answer stays a token. *)
Theorem sanitize_safe_text (s : pystr) :
  html_safe s = true -> sanitize_input (PStr s) = s.
Proof.
  unfold html_safe, html_special. cbn [forallb]. intros H.
  repeat (apply andb_true_iff in H; destruct H as [? H]).
  repeat match goal with
         | E : negb (has _ s) = true |- _ => apply negb_true_iff in E
         end.
  unfold sanitize_input, html_escape. cbn [str]. cbv zeta.
  rewrite (replace_absent s (u "&") (u "&amp;"))
    by (apply (has_false_contains 38 s []); assumption).
  rewrite (replace_absent s (u "<") (u "&lt;"))
    by (apply (has_false_contains 60 s []); assumption).
  rewrite (replace_absent s (u ">") (u "&gt;"))
    by (apply (has_false_contains 62 s []); assumption).
  rewrite (replace_absent s [34%N] (u "&quot;"))
    by (apply (has_false_contains 34 s []); assumption).
  apply replace_absent. apply (has_false_contains 39 s []); assumption.
Qed.

Lemma sanitize_safe_text_witness :
  sanitize_input (PStr (u "see {our_ref}")) = u "see {our_ref}".
Proof.
  apply (sanitize_safe_text (u "see {our_ref}")). vm_compute; reflexivity.
Defined.

(** ** Resolver: the names that the map binds *)

Lemma is_some_get_keys {V : Type} (d : dict V) (k : pystr) :
  is_some (get d k) = existsb (PyStr.eqb k) (keys d).
Proof.
  induction d as [|[k' v] d IH]; [reflexivity|].
  cbn [get keys map fst existsb]. rewrite (eqb_sym k k').
  destruct (PyStr.eqb k' k); [reflexivity | exact IH].
Qed.

Lemma is_some_get_set {V : Type} (d : dict V) (k k' : pystr) (v : V) :
  is_some (get (set d k' v) k) = is_some (get d k) || PyStr.eqb k' k.
Proof.
  destruct (PyStr.eqb k' k) eqn:E.
  - apply eqb_eq in E. subst k'. rewrite get_set_same. cbn.
    rewrite orb_true_r. reflexivity.
  - rewrite get_set_other by exact E. rewrite orb_false_r. reflexivity.
Qed.

Lemma is_some_get_update {V : Type} (items d : dict V) (k : pystr) :
  is_some (get (update d items) k)
  = is_some (get d k) || is_some (get items k).
Proof.
  revert d. induction items as [|[k' v] items IH]; intros d.
  - cbn. rewrite orb_false_r. reflexivity.
  - unfold update in *. cbn [fold_left fst snd get].
    rewrite IH, is_some_get_set.
    destruct (PyStr.eqb k' k); cbn [is_some];
      rewrite ?orb_true_r, ?orb_false_r; reflexivity.
Qed.

(** The map binds the fourteen field names and the names of the firm
    details, and no other name, whatever the inputs hold: an input outside
    the fourteen never becomes a placeholder, and each of the fourteen is
    bound even when its input is missing. *)
Theorem placeholder_map_domain (app_inputs firm_details : dict pyval)
    (k : pystr) :
  is_some (get (get_placeholder_map app_inputs firm_details) k)
  = existsb (PyStr.eqb k) field_names || is_some (get firm_details k).
Proof.
  unfold get_placeholder_map, of_items.
  rewrite !is_some_get_update. cbn [get is_some orb].
  rewrite get_map_str.
  rewrite (is_some_get_keys (placeholder_items app_inputs)).
  replace (keys (placeholder_items app_inputs)) with field_names
    by (vm_compute; reflexivity).
  destruct (get firm_details k); reflexivity.
Qed.

(** ** Assembler: composition and failure *)

Lemma process_elements_app (app_inputs placeholder_map : dict pyval)
    (before after : list element) :
  process_elements app_inputs placeholder_map (before ++ after)
  = match process_elements app_inputs placeholder_map before with
    | Ok added =>
        match process_elements app_inputs placeholder_map after with
        | Ok later => Ok (added ++ later)
        | Raise e => Raise e
        end
    | Raise e => Raise e
    end.
Proof.
  induction before as [|e before IH].
  - cbn. destruct (process_elements app_inputs placeholder_map after);
      reflexivity.
  - cbn [app process_elements].
    destruct (render_this_element app_inputs e) as [[|]|err]; cbn [bind negb].
    + destruct (render_element app_inputs placeholder_map e) as [bs|err];
        cbn [bind]; [|reflexivity].
      rewrite IH.
      destruct (process_elements app_inputs placeholder_map before);
        cbn [bind]; [|reflexivity].
      destruct (process_elements app_inputs placeholder_map after);
        cbn [bind]; [rewrite app_assoc|]; reflexivity.
    + exact IH.
    + reflexivity.
Qed.

(** The elements are rendered one by one and independently: the blocks of
    a list of elements are those of its first part followed by those of the
    rest, and the first exception met, in the order of the elements, is the
    outcome of the whole. *)
Theorem process_elements_append (app_inputs placeholder_map : dict pyval)
    (before after : list element) :
  process_elements app_inputs placeholder_map (before ++ after)
  = match process_elements app_inputs placeholder_map before with
    | Ok added =>
        match process_elements app_inputs placeholder_map after with
        | Ok later => Ok (added ++ later)
        | Raise e => Raise e
        end
    | Raise e => Raise e
    end.
Proof. apply process_elements_app. Qed.

(** A fee table that is to be rendered while the inputs hold no hourly
    rate ends the run with the key error of [hourly_rate]: the blocks of
    the elements before it are not returned, and the elements after it are
    not looked at. *)
Theorem fee_table_needs_hourly_rate (app_inputs placeholder_map : dict pyval)
    (before after : list element) (e : element) (added : list block) :
  get app_inputs (u "hourly_rate") = None ->
  process_elements app_inputs placeholder_map before = Ok added ->
  type e = fee_table ->
  render_this_element app_inputs e = Ok true ->
  process_elements app_inputs placeholder_map (before ++ e :: after)
  = Raise (KeyError (u "hourly_rate")).
Proof.
  intros Hrate Hbefore Hty Hvis.
  rewrite process_elements_app, Hbefore.
  cbn [process_elements]. rewrite Hvis. cbn [bind negb].
  unfold render_element, index. rewrite Hty, Hrate. reflexivity.
Qed.

Lemma fee_table_needs_hourly_rate_witness :
  process_elements [] []
    ([Build_element general_paragraph [u "Our charges"] None None]
     ++ Build_element fee_table [u "[FEE_TABLE_PLACEHOLDER]"] None None
     :: [Build_element general_paragraph [u "Yours sincerely"] None None])
  = Raise (KeyError (u "hourly_rate")).
Proof.
  apply (fee_table_needs_hourly_rate [] []
           [Build_element general_paragraph [u "Our charges"] None None]
           [Build_element general_paragraph [u "Yours sincerely"] None None]
           (Build_element fee_table [u "[FEE_TABLE_PLACEHOLDER]"] None None)
           (added :=
              [Paragraph
                 (Build_paragraph [text_run "Our charges" false false]
                    None (Some JUSTIFY) None (Some (Pt 12)) None)])
           eq_refl);
    vm_compute; reflexivity.
Defined.

Lemma index_present {V : Type} (d : dict V) (k : pystr) :
  is_some (get d k) = true -> exists v, index d k = Ok v.
Proof.
  unfold index. destruct (get d k) as [v|]; [|discriminate].
  intros _. exists v. reflexivity.
Qed.

(** ** Assembler: what is handed to the document library *)

Lemma preprocess_flat_lines (content : pystr) (app_inputs : dict pyval) :
  flat_map content_lines (preprocess_precedent content app_inputs)
  = filter is_content_line (splitlines content).
Proof.
  unfold preprocess_precedent.
  destruct (fold_step_lines (splitlines content) initial_state eq_refl)
    as (Hb & Hl & _).
  cbv zeta in Hb, Hl. cbn [initial_state logical_elements block_lines
                           flat_map app] in Hl.
  destruct (block_lines (fold_left step (splitlines content) initial_state))
    eqn:E; cbn [nonempty].
  - rewrite app_nil_r in Hl. exact Hl.
  - rewrite flush_block_lines by exact Hb. exact Hl.
Qed.

Lemma forallb_flat_map {A B : Type} (Q : B -> bool) (f : A -> list B)
    (l : list A) :
  forallb Q (flat_map f l) = forallb (fun a => forallb Q (f a)) l.
Proof.
  induction l as [|a l IH]; [reflexivity|].
  cbn [flat_map forallb]. rewrite forallb_app, IH. reflexivity.
Qed.

Lemma forallb_filter {A : Type} (Q f : A -> bool) (l : list A) :
  forallb Q l = true -> forallb Q (filter f l) = true.
Proof.
  intros H. apply forallb_forall. intros a Ha. apply filter_In in Ha as [Ha _].
  rewrite forallb_forall in H. auto.
Qed.

(** The lines of the parsed elements hold only characters of the
    template. *)
Lemma parsed_lines_chars (P : N -> bool) (content : pystr)
    (app_inputs : dict pyval) :
  forallb P content = true ->
  forallb (fun e => forallb (forallb P) (content_lines e))
    (preprocess_precedent content app_inputs) = true.
Proof.
  intros H. rewrite <- forallb_flat_map, preprocess_flat_lines.
  apply forallb_filter, all_splitlines, H.
Qed.

Section InputsPresent.

Variables app_inputs placeholder_map : dict pyval.
Hypothesis present :
  forallb (fun k => is_some (get app_inputs k)) required_inputs = true.
Hypothesis rate_xml :
  match get app_inputs (u "hourly_rate") with
  | Some v => forallb xml_char (str v)
  | None => false
  end = true.
Hypothesis values_xml :
  forallb (fun kv => forallb xml_char (str (snd kv))) placeholder_map = true.

Lemma required_present :
  (exists v, index app_inputs (u "client_type") = Ok v)
  /\ (exists v, index app_inputs (u "claim_assigned") = Ok v)
  /\ (exists v, index app_inputs (u "selected_track") = Ok v)
  /\ (exists v, index app_inputs (u "hourly_rate") = Ok v
                /\ forallb xml_char (str v) = true).
Proof.
  pose proof present as H. unfold required_inputs in H. cbn [forallb] in H.
  repeat (apply andb_true_iff in H; destruct H as [? H]).
  repeat split; try (apply index_present; assumption).
  pose proof rate_xml as Hr. unfold index.
  destruct (get app_inputs (u "hourly_rate")) as [v|]; [|discriminate].
  exists v. auto.
Qed.

Lemma render_this_element_ok (e : element) :
  exists b, render_this_element app_inputs e = Ok b.
Proof.
  destruct required_present as ([ct Hct] & [ca Hca] & [tr Htr] & _).
  unfold render_this_element.
  destruct (block_tag e) as [[|c tag]|]; try (eexists; reflexivity).
  rewrite Hct, Hca, Htr. cbn [bind].
  destruct (PyStr.eqb (c :: tag) (u "indiv")); [eexists; reflexivity|].
  destruct (PyStr.eqb (c :: tag) (u "corp")); eexists; reflexivity.
Qed.

Lemma formatted_runs_xml (text : pystr) :
  forallb xml_char text = true ->
  forallb (run_chars xml_char) (formatted_runs text placeholder_map) = true.
Proof.
  intros H. apply formatted_runs_chars, all_or_line_feed, all_substitute;
    [exact values_xml | exact H].
Qed.

Lemma add_list_item_xml (level : Z) (text : pystr) :
  forallb xml_char text = true ->
  forallb (run_chars xml_char)
    (runs (add_list_item placeholder_map level text)) = true.
Proof.
  intros H. unfold add_list_item, add_formatted_runs. cbn [runs app].
  apply formatted_runs_xml, all_strip, all_replace; [|reflexivity].
  apply all_replace; [exact H | reflexivity].
Qed.

Lemma render_element_ok (e : element) :
  forallb (forallb xml_char) (content_lines e) = true ->
  exists bs,
    render_element app_inputs placeholder_map e = Ok bs
    /\ forallb (block_chars xml_char) bs = true.
Proof.
  intros Hlines.
  destruct required_present as (_ & _ & _ & (hr & Hhr & Hxml)).
  assert (Hcontent : forallb xml_char
                       match content_lines e with
                       | first :: _ => first
                       | [] => []
                       end = true).
  { destruct (content_lines e) as [|first rest]; [reflexivity|].
    cbn [forallb] in Hlines. apply andb_true_iff in Hlines as [H _].
    exact H. }
  unfold render_element.
  destruct (type e).
  - eexists; split; reflexivity.
  - eexists; split; [reflexivity|].
    cbn [forallb block_chars runs add_formatted_runs add_paragraph app].
    rewrite formatted_runs_xml by exact Hcontent. reflexivity.
  - rewrite Hhr. cbn [bind].
    assert (E : fill_table (add_table 5 2) 0
                  [ (u "Grade A", u "£450 (Partners, Solicitors over 8 years)");
                    (u "Grade B",
                      u "£350 (Solicitors/Legal Executives over 4 years)");
                    (u "Grade C",
                      u "£" ++ str hr
                      ++ u " (Solicitors/Legal Executives under 4 years)");
                    (u "Grade D", u "£250 (Trainees, Paralegals)");
                    (u "Grade E", u "£150 (Support Staff)") ]
                = Ok [ [u "Grade A";
                        u "£450 (Partners, Solicitors over 8 years)"];
                       [u "Grade B";
                        u "£350 (Solicitors/Legal Executives over 4 years)"];
                       [u "Grade C";
                        u "£" ++ str hr
                        ++ u " (Solicitors/Legal Executives under 4 years)"];
                       [u "Grade D"; u "£250 (Trainees, Paralegals)"];
                       [u "Grade E"; u "£150 (Support Staff)"] ])
      by (vm_compute; reflexivity).
    rewrite E. cbn [bind].
    eexists; split; [reflexivity|].
    assert (Hcell : forallb xml_char
                      (u "£" ++ str hr
                       ++ u " (Solicitors/Legal Executives under 4 years)")
                    = true).
    { rewrite !forallb_app, Hxml. vm_compute; reflexivity. }
    cbn [forallb block_chars runs]. rewrite Hcell. vm_compute; reflexivity.
  - eexists; split; [reflexivity|].
    cbn [forallb block_chars]. rewrite add_list_item_xml by exact Hcontent.
    reflexivity.
  - eexists; split; [reflexivity|].
    cbn [forallb block_chars]. rewrite add_list_item_xml by exact Hcontent.
    reflexivity.
  - eexists; split; [reflexivity|].
    cbn [forallb block_chars]. rewrite add_list_item_xml by exact Hcontent.
    reflexivity.
  - eexists; split; [reflexivity|].
    cbn [forallb block_chars runs add_formatted_runs app].
    rewrite formatted_runs_xml; [reflexivity|].
    apply all_strip, all_replace; [exact Hcontent | reflexivity].
Qed.

Lemma process_elements_ok (elements : list element) :
  forallb (fun e => forallb (forallb xml_char) (content_lines e)) elements
  = true ->
  exists body,
    process_elements app_inputs placeholder_map elements = Ok body
    /\ forallb (block_chars xml_char) body = true.
Proof.
  induction elements as [|e elements IH]; intros H.
  - exists []. split; reflexivity.
  - cbn [forallb] in H. apply andb_true_iff in H as [He H].
    destruct (IH H) as (later & Hlater & Hchars).
    cbn [process_elements].
    destruct (render_this_element_ok e) as [[|] ->]; cbn [bind negb].
    + destruct (render_element_ok e He) as (bs & -> & Hbs). cbn [bind].
      rewrite Hlater. cbn [bind]. eexists. split; [reflexivity|].
      rewrite forallb_app, Hbs, Hchars. reflexivity.
    + exists later. auto.
Qed.

(** When the inputs hold the four keys that the assembler reads, and the
    template, the values of the placeholder map and the hourly rate are
    made of characters that XML allows, none of the assembler's own
    operations raises, for any template: no key is missing and no index
    is out of range; and every text that it hands to the document library,
    in a run or in a table, is made of characters that XML allows, so the
    library does not refuse it. *)
Theorem assembly_succeeds (precedent_content : pystr) :
  forallb xml_char precedent_content = true ->
  exists doc,
    process_precedent_text precedent_content app_inputs placeholder_map
    = Ok doc
    /\ forallb (block_chars xml_char) (body doc) = true.
Proof.
  intros H. unfold process_precedent_text.
  destruct (process_elements_ok
              (preprocess_precedent precedent_content app_inputs)
              (parsed_lines_chars xml_char precedent_content app_inputs H))
    as (blocks & -> & Hchars).
  eexists. split; [reflexivity | exact Hchars].
Qed.

End InputsPresent.

Lemma assembly_succeeds_witness :
  let app_inputs :=
    [ (u "client_type", PStr (u "Individual"));
      (u "claim_assigned", PBool false);
      (u "selected_track", PStr (u "Fast Track"));
      (u "hourly_rate", PInt 295);
      (u "our_ref", PStr (u "PDP/10011/001")) ] in
  exists doc,
    process_precedent_text
      (u "[indiv]" ++ [10%N] ++ u "<a> Our ref {our_ref}" ++ [10%N]
       ++ u "[/corp]" ++ [10%N] ++ u "[FEE_TABLE_PLACEHOLDER]")
      app_inputs (get_placeholder_map app_inputs load_firm_details)
    = Ok doc
    /\ forallb (block_chars xml_char) (body doc) = true.
Proof.
  cbv zeta.
  apply (@assembly_succeeds
           [ (u "client_type", PStr (u "Individual"));
             (u "claim_assigned", PBool false);
             (u "selected_track", PStr (u "Fast Track"));
             (u "hourly_rate", PInt 295);
             (u "our_ref", PStr (u "PDP/10011/001")) ]
           (get_placeholder_map
              [ (u "client_type", PStr (u "Individual"));
                (u "claim_assigned", PBool false);
                (u "selected_track", PStr (u "Fast Track"));
                (u "hourly_rate", PInt 295);
                (u "our_ref", PStr (u "PDP/10011/001")) ]
              load_firm_details));
    vm_compute; reflexivity.
Defined.

(** ** Assembler: the track tags *)

Lemma get_in_values {V : Type} (d : dict V) (k : pystr) (v : V) :
  get d k = Some v -> In v (map snd d).
Proof.
  induction d as [|[k' v'] d IH]; cbn [get map snd]; [discriminate|].
  destruct (PyStr.eqb k' k); [intros [= ->]; left; reflexivity|].
  intros H. right. exact (IH H).
Qed.

(** The tag [t] is the one that is rendered, of the tags of a list. *)
Ltac choose_tag t :=
  exists t; split; [cbn [In]; auto 10|];
  let tag := fresh "tag" in
  let Ht := fresh "Ht" in
  intros tag Ht; cbn [In] in Ht;
  repeat (destruct Ht as [Ht|Ht]; [subst tag; vm_compute; reflexivity|]);
  contradiction.

(** Of the eight track tags exactly one is rendered for each choice of the
    claim-assigned flag and of one of the four track names; no track tag is
    rendered for any other track name, and a tag that is not one of the
    eight is never rendered. *)
Theorem track_tag_selection :
  (forall tag claim_assigned selected_track,
      existsb (PyStr.eqb tag) track_tags = false ->
      should_render_track_block tag claim_assigned selected_track = false)
  /\ (forall tag claim_assigned selected_track,
        existsb (PyStr.eqb selected_track) track_names = false ->
        should_render_track_block tag (PBool claim_assigned)
          (PStr selected_track) = false)
  /\ (forall claim_assigned selected_track,
        In selected_track track_names ->
        exists chosen,
          In chosen track_tags
          /\ forall tag,
               In tag track_tags ->
               should_render_track_block tag (PBool claim_assigned)
                 (PStr selected_track)
               = PyStr.eqb tag chosen).
Proof.
  split; [|split].
  - intros tag ca tr H. unfold should_render_track_block.
    rewrite (get_none_existsb tag_map tag); [reflexivity|].
    replace (keys tag_map) with track_tags by (vm_compute; reflexivity).
    exact H.
  - intros tag ca tr H. unfold should_render_track_block.
    destruct (get tag_map tag) as [[b track]|] eqn:E; [|reflexivity].
    apply get_in_values in E. rewrite tag_map_table in E.
    unfold track_names in H. cbn [existsb] in H.
    repeat (apply orb_false_iff in H; destruct H as [? H]).
    cbn [fst snd py_eq]. cbn [map snd In] in E.
    repeat (destruct E as [E|E];
            [injection E as <- <-; rewrite andb_false_r || idtac;
             match goal with
             | F : PyStr.eqb tr _ = false |- _ =>
                 solve [rewrite F; apply andb_false_r]
             end|]).
    contradiction.
  - intros ca tr Hin. unfold track_names in Hin. cbn [In] in Hin.
    unfold track_tags.
    destruct ca;
      repeat (destruct Hin as [Hin|Hin];
              [subst tr;
               first [ choose_tag (u "a1") | choose_tag (u "a2")
                     | choose_tag (u "a3") | choose_tag (u "a4")
                     | choose_tag (u "u1") | choose_tag (u "u2")
                     | choose_tag (u "u3") | choose_tag (u "u4") ]|]);
      contradiction.
Qed.

Lemma track_tag_selection_witness :
  should_render_track_block (u "b7") (PBool true) (PStr (u "Fast Track"))
  = false
  /\ should_render_track_block (u "a2") (PBool true) (PStr (u "Fast track"))
     = false
  /\ exists chosen,
       In chosen track_tags
       /\ forall tag,
            In tag track_tags ->
            should_render_track_block tag (PBool false)
              (PStr (u "Multi Track"))
            = PyStr.eqb tag chosen.
Proof.
  destruct track_tag_selection as (Hunknown & Htrack & Hone).
  split; [apply Hunknown; reflexivity|].
  split; [apply Htrack; reflexivity|].
  apply Hone. vm_compute. auto 10.
Defined.

(** ** Parser: lines of different list types are not merged *)

Lemma lstrip_idem (s : pystr) : lstrip (lstrip s) = lstrip s.
Proof.
  induction s as [|c s IH]; [reflexivity|].
  cbn [lstrip]. destruct (isspace c) eqn:E; [exact IH|].
  cbn [lstrip]. rewrite E. reflexivity.
Qed.

Lemma lstrip_snoc (s : pystr) (c : N) :
  isspace c = false -> exists x, lstrip (s ++ [c]) = x ++ [c].
Proof.
  intros Hc. induction s as [|d s [x IH]].
  - exists []. cbn. rewrite Hc. reflexivity.
  - cbn [app lstrip]. destruct (isspace d).
    + exists x. exact IH.
    + exists (d :: s). reflexivity.
Qed.

Lemma rstrip_head (c : N) (s : pystr) :
  isspace c = false -> exists t, rstrip (c :: s) = c :: t.
Proof.
  intros Hc. unfold rstrip. cbn [rev].
  destruct (lstrip_snoc (rev s) c Hc) as [x ->].
  rewrite rev_app_distr. exists (rev x). reflexivity.
Qed.

Lemma rstrip_idem (s : pystr) : rstrip (rstrip s) = rstrip s.
Proof. unfold rstrip. rewrite rev_involutive, lstrip_idem. reflexivity. Qed.

Lemma lstrip_head (s : pystr) (c : N) (t : pystr) :
  lstrip s = c :: t -> isspace c = false.
Proof.
  induction s as [|d s IH]; [discriminate|].
  cbn [lstrip]. destruct (isspace d) eqn:Hd; [exact IH|].
  intros [= <- _]. exact Hd.
Qed.

Lemma strip_idem (s : pystr) : strip (strip s) = strip s.
Proof.
  unfold strip.
  destruct (lstrip s) as [|c t] eqn:E; [reflexivity|].
  pose proof (lstrip_head s E) as Hc.
  destruct (rstrip_head c t Hc) as [t' Ht]. rewrite Ht.
  cbn [lstrip]. rewrite Hc, <- Ht. apply rstrip_idem.
Qed.

Lemma determine_list_type_strip (s : pystr) :
  determine_list_type (strip s) = determine_list_type s.
Proof. unfold determine_list_type. rewrite strip_idem. reflexivity. Qed.

Lemma markers_agree_one (k : list_kind) (lines : list pystr) :
  markers_agree k lines = true -> one_marker_kind lines = true.
Proof.
  intros H. unfold one_marker_kind. cbn [existsb].
  destruct k; rewrite H; rewrite ?orb_true_r; reflexivity.
Qed.

Lemma markers_agree_snoc (k : list_kind) (lines : list pystr) (raw : pystr) :
  markers_agree k (lines ++ [raw])
  = markers_agree k lines
    && match determine_list_type raw with
       | Some k' => list_kind_eqb k' k
       | None => true
       end.
Proof.
  unfold markers_agree. rewrite forallb_app. cbn [forallb].
  rewrite andb_true_r. reflexivity.
Qed.

Lemma one_marker_kind_snoc (lines : list pystr) (raw : pystr) :
  determine_list_type raw = None ->
  one_marker_kind lines = true ->
  one_marker_kind (lines ++ [raw]) = true.
Proof.
  intros Hraw. unfold one_marker_kind. cbn [existsb].
  rewrite !markers_agree_snoc, Hraw, !andb_true_r. auto.
Qed.

Lemma buffer_markers_one (st : parser_state) :
  buffer_markers_ok st -> one_marker_kind (block_lines st) = true.
Proof.
  unfold buffer_markers_ok. destruct (current_list_type st);
    [apply markers_agree_one | auto].
Qed.

Lemma determine_raw (raw line : pystr) (o : option list_kind) :
  strip raw = line ->
  determine_list_type line = o ->
  determine_list_type raw = o.
Proof.
  intros <- <-. symmetry. apply determine_list_type_strip.
Qed.

Lemma list_kind_eqb_refl (k : list_kind) : list_kind_eqb k k = true.
Proof. destruct k; reflexivity. Qed.

Lemma step_buffer_markers (st : parser_state) (raw : pystr) :
  buffer_markers_ok st -> buffer_markers_ok (step st raw).
Proof.
  intros H. pose proof (buffer_markers_one st H) as Hone.
  unfold buffer_markers_ok in *.
  step_cases st raw.
  - destruct (current_list_type st); reflexivity.
  - exact H.
  - reflexivity.
  - exact Hone.
  - destruct (current_list_type st); reflexivity.
  - destruct (current_list_type st); reflexivity.
  - cbn [app]. unfold markers_agree. cbn [forallb].
    rewrite (determine_raw raw Hline Hnew), list_kind_eqb_refl. reflexivity.
  - destruct (block_lines st); [|discriminate].
    cbn [app]. unfold markers_agree. cbn [forallb].
    rewrite (determine_raw raw Hline Hnew), list_kind_eqb_refl. reflexivity.
  - destruct (current_list_type st) as [k|]; [|discriminate].
    cbn [differs] in Hdiff. apply negb_false_iff in Hdiff.
    rewrite markers_agree_snoc, H, (determine_raw raw Hline Hnew), Hdiff.
    reflexivity.
  - destruct (current_list_type st) as [k|].
    + rewrite markers_agree_snoc, H, (determine_raw raw Hline Hnew).
      reflexivity.
    + apply one_marker_kind_snoc;
        [exact (determine_raw raw Hline Hnew) | exact H].
Qed.

Lemma flush_block_one_kind (els : list element) (tag : option pystr)
    (buf : list pystr) (lt : option list_kind) :
  one_marker_kind buf = true ->
  forallb (fun e => one_marker_kind (content_lines e)) els = true ->
  forallb (fun e => one_marker_kind (content_lines e))
    (flush_block els tag buf lt) = true.
Proof.
  intros Hb H. unfold flush_block.
  destruct buf as [|first rest]; [exact H|].
  destruct (strip first) as [|c s];
    [|destruct (contains (c :: s) (u "<ins>"));
      [|destruct (contains (c :: s) (u "[FEE_TABLE_PLACEHOLDER]"))]];
    rewrite forallb_app, H; cbn [forallb content_lines andb];
    rewrite ?Hb; reflexivity.
Qed.

Lemma step_elements_one_kind (st : parser_state) (raw : pystr) :
  buffer_markers_ok st ->
  forallb (fun e => one_marker_kind (content_lines e)) (logical_elements st)
  = true ->
  forallb (fun e => one_marker_kind (content_lines e))
    (logical_elements (step st raw)) = true.
Proof.
  intros Hb H. apply buffer_markers_one in Hb.
  step_cases st raw; try exact H;
    try (apply flush_block_one_kind; assumption);
    rewrite forallb_app; cbn [forallb content_lines andb];
    rewrite andb_true_r; try exact H;
    apply flush_block_one_kind; assumption.
Qed.

(** Lines that start with list markers of different kinds are never put
    into one element: in every parsed element, the lines that start with a
    list marker all start with the marker of one kind. *)
Theorem parsed_lines_one_marker_kind (content : pystr)
    (app_inputs : dict pyval) :
  Forall
    (fun e =>
       exists k,
         Forall
           (fun l =>
              determine_list_type l = None \/ determine_list_type l = Some k)
           (content_lines e))
    (preprocess_precedent content app_inputs).
Proof.
  assert (H : forallb (fun e => one_marker_kind (content_lines e))
                (preprocess_precedent content app_inputs) = true).
  { unfold preprocess_precedent.
    destruct (fold_step_invariant
                (fun st =>
                   buffer_markers_ok st
                   /\ forallb (fun e => one_marker_kind (content_lines e))
                        (logical_elements st) = true)
                (fun st raw (P : _ /\ _) =>
                   conj (step_buffer_markers st raw (proj1 P))
                        (step_elements_one_kind st raw (proj1 P) (proj2 P)))
                (splitlines content) initial_state
                (conj eq_refl eq_refl)) as [Hb He].
    destruct (nonempty _); [|exact He].
    apply flush_block_one_kind; [apply buffer_markers_one|]; assumption. }
  apply Forall_forall. intros e He.
  rewrite forallb_forall in H. specialize (H e He).
  unfold one_marker_kind in H. apply existsb_exists in H as (k & _ & Hk).
  exists k. apply Forall_forall. intros l Hl.
  unfold markers_agree in Hk. rewrite forallb_forall in Hk.
  specialize (Hk l Hl).
  destruct (determine_list_type l) as [k'|]; [right | left; reflexivity].
  destruct k', k; (discriminate || reflexivity).
Qed.

(** ** Parser: whole templates *)

Lemma splitlines_from_line (l rest : pystr) :
  one_line l = true ->
  forall cur,
    splitlines_from cur (l ++ 10%N :: rest)
    = (rev cur ++ l) :: splitlines_from [] rest.
Proof.
  induction l as [|c l IH]; intros H cur.
  - cbn [app splitlines_from]. rewrite app_nil_r.
    replace (is_linebreak 10) with true by reflexivity.
    destruct rest as [|d rest]; [reflexivity|].
    replace ((10 =? 13)%N && (d =? 10)%N) with false by reflexivity.
    reflexivity.
  - unfold one_line in H. cbn [forallb] in H.
    apply andb_true_iff in H as [Hc H]. apply negb_true_iff in Hc.
    cbn [app splitlines_from]. rewrite Hc, (IH H).
    cbn [rev]. rewrite <- app_assoc. reflexivity.
Qed.

Lemma splitlines_join (lines : list pystr) :
  forallb (fun l => one_line l && nonempty l) lines = true ->
  splitlines (join_lines lines) = lines.
Proof.
  unfold splitlines.
  induction lines as [|l lines IH]; intros H; [reflexivity|].
  cbn [forallb] in H. apply andb_true_iff in H as [Hl H].
  apply andb_true_iff in Hl as [Hone Hne].
  destruct lines as [|l' lines].
  - cbn [join_lines]. rewrite splitlines_from_one_line by exact Hone.
    destruct l; [discriminate | reflexivity].
  - change (join_lines (l :: l' :: lines))
      with (l ++ 10%N :: join_lines (l' :: lines)).
    rewrite splitlines_from_line by exact Hone.
    rewrite (IH H). reflexivity.
Qed.






Lemma tag_line_facts (tag : pystr) :
  In tag tag_names ->
  strip (u "[" ++ tag ++ u "]") = u "[" ++ tag ++ u "]"
  /\ strip (u "[/" ++ tag ++ u "]") = u "[/" ++ tag ++ u "]"
  /\ one_line (u "[" ++ tag ++ u "]") = true
  /\ one_line (u "[/" ++ tag ++ u "]") = true.
Proof.
  unfold tag_names. cbn [In]. intros H.
  repeat (destruct H as [H|H];
          [subst tag; repeat split; vm_compute; reflexivity|]).
  contradiction.
Qed.

Lemma flush_block_single (tag : option pystr) (line : pystr)
    (lt : option list_kind) :
  nonempty (strip line) = true ->
  exists ty lt',
    flush_block [] tag [line] lt = [Build_element ty [line] tag lt'].
Proof.
  intros H. unfold flush_block.
  destruct (strip line) as [|c s]; [discriminate|].
  destruct (contains (c :: s) (u "<ins>"));
    [|destruct (contains (c :: s) (u "[FEE_TABLE_PLACEHOLDER]"))];
    do 2 eexists; reflexivity.
Qed.

(** A block of one line, between an open tag and a close tag.  When the
    close tag names the open block, the line becomes an element of that
    block; when it names another block, the close tag clears the block and
    the line is emitted at the end of the input outside any block, with no
    list type, so it is rendered whatever the selections are. *)
Theorem block_close_tag_matters (tag closed line : pystr)
    (app_inputs : dict pyval) :
  In tag tag_names ->
  In closed tag_names ->
  one_line line = true ->
  is_content_line line = true ->
  let template :=
    join_lines [u "[" ++ tag ++ u "]"; line; u "[/" ++ closed ++ u "]"] in
  preprocess_precedent template app_inputs
  = (if PyStr.eqb tag closed
     then flush_block [] (Some tag) [line] (determine_list_type line)
     else flush_block [] None [line] None)
  /\ exists ty lt,
       preprocess_precedent template app_inputs
       = [Build_element ty [line]
            (if PyStr.eqb tag closed then Some tag else None) lt].
Proof.
  intros Htag Hclosed Hone Hcontent template.
  destruct (tag_line_facts Htag) as (So & _ & Oo & _).
  destruct (tag_line_facts Hclosed) as (_ & Sc & _ & Oc).
  unfold is_content_line in Hcontent. cbv zeta in Hcontent.
  apply andb_true_iff in Hcontent as [Hc Hne].
  apply andb_true_iff in Hc as [Hno Hnc].
  apply is_none_eq in Hno, Hnc.
  assert (Hl : nonempty line = true).
  { destruct line; [discriminate | reflexivity]. }
  assert (E : preprocess_precedent template app_inputs
              = if PyStr.eqb tag closed
                then flush_block [] (Some tag) [line]
                       (determine_list_type line)
                else flush_block [] None [line] None).
  { unfold preprocess_precedent, template.
    rewrite splitlines_join.
    2:{ cbn [forallb]. rewrite Oo, Oc, Hone, Hl. reflexivity. }
    cbn [fold_left].
    assert (E1 : step initial_state (u "[" ++ tag ++ u "]")
                 = Build_parser_state [] (Some tag) [] None).
    { unfold step. rewrite So, (open_tag_matches Htag). reflexivity. }
    rewrite E1.
    assert (E2 : step (Build_parser_state [] (Some tag) [] None) line
                 = Build_parser_state [] (Some tag) [line]
                     (determine_list_type line)).
    { unfold step. rewrite Hno, Hnc.
      destruct (strip line) as [|c s] eqn:Hs; [discriminate|].
      rewrite <- Hs, determine_list_type_strip.
      cbn [logical_elements current_block_tag block_lines current_list_type
           nonempty andb app].
      destruct (determine_list_type line) as [k|];
        cbn [differs]; rewrite ?andb_false_r; reflexivity. }
    rewrite E2.
    destruct (close_tag_matches Hclosed) as [Mo Mc].
    assert (E3 : step (Build_parser_state [] (Some tag) [line]
                         (determine_list_type line))
                   (u "[/" ++ closed ++ u "]")
                 = if PyStr.eqb tag closed
                   then Build_parser_state
                          (flush_block [] (Some tag) [line]
                             (determine_list_type line)) None [] None
                   else Build_parser_state [] None [line] None).
    { unfold step. rewrite Sc, Mo, Mc.
      cbn [logical_elements current_block_tag block_lines current_list_type
           nonempty andb tag_is].
      destruct (PyStr.eqb tag closed); reflexivity. }
    rewrite E3. destruct (PyStr.eqb tag closed); reflexivity. }
  split; [exact E|].
  rewrite E. destruct (PyStr.eqb tag closed);
    apply flush_block_single; exact Hne.
Qed.

Lemma block_close_tag_matters_witness :
  preprocess_precedent
    (join_lines [ u "[" ++ u "corp" ++ u "]"; u "For companies only";
                  u "[/" ++ u "indiv" ++ u "]" ])
    []
  = [Build_element general_paragraph [u "For companies only"] None None].
Proof.
  rewrite (proj1 (@block_close_tag_matters (u "corp") (u "indiv")
                    (u "For companies only") []
                    (or_intror (or_introl eq_refl)) (or_introl eq_refl)
                    eq_refl eq_refl)).
  vm_compute; reflexivity.
Defined.

(** *** An open tag while a line is buffered *)

Lemma step_content_line (st : parser_state) (line : pystr) :
  is_content_line line = true ->
  block_lines st = [] ->
  current_list_type st = None ->
  step st line
  = Build_parser_state (logical_elements st) (current_block_tag st) [line]
      (determine_list_type line).
Proof.
  unfold is_content_line. cbv zeta. intros H Hbuf Hlt.
  apply andb_true_iff in H as [H Hne]. apply andb_true_iff in H as [Ho Hc].
  apply is_none_eq in Ho, Hc.
  unfold step. rewrite Ho, Hc, Hbuf, Hlt.
  destruct (strip line) as [|c s] eqn:Hs; [discriminate|].
  rewrite <- Hs, determine_list_type_strip.
  cbn [nonempty andb app].
  destruct (determine_list_type line) as [k|];
    cbn [differs]; rewrite ?andb_false_r; reflexivity.
Qed.

Lemma step_close_tag (st : parser_state) (closed : pystr) :
  In closed tag_names ->
  step st (u "[/" ++ closed ++ u "]")
  = if nonempty (block_lines st) && tag_is (current_block_tag st) closed
    then Build_parser_state
           (flush_block (logical_elements st) (current_block_tag st)
              (block_lines st) (current_list_type st))
           None [] None
    else Build_parser_state (logical_elements st) None (block_lines st) None.
Proof.
  intros Hin.
  destruct (tag_line_facts Hin) as (_ & Sc & _).
  destruct (close_tag_matches Hin) as [Mo Mc].
  unfold step. rewrite Sc, Mo, Mc. reflexivity.
Qed.

(** An open tag that is met while a content line is buffered.  With no
    block open, the line is flushed at the open tag as an element outside
    any block.  With a block open, the line is not flushed: it is emitted
    under the new tag when the input ends there or when the new block is
    closed by its own close tag, and outside any block, with no list type,
    when the close tag that follows names another block.  In each case the
    line is one element. *)
Theorem open_tag_after_line (first second closed line : pystr)
    (app_inputs : dict pyval) :
  In first tag_names ->
  In second tag_names ->
  In closed tag_names ->
  one_line line = true ->
  is_content_line line = true ->
  preprocess_precedent (join_lines [line; u "[" ++ second ++ u "]"])
    app_inputs
  = flush_block [] None [line] (determine_list_type line)
  /\ preprocess_precedent
       (join_lines [u "[" ++ first ++ u "]"; line; u "[" ++ second ++ u "]"])
       app_inputs
     = flush_block [] (Some second) [line] (determine_list_type line)
  /\ preprocess_precedent
       (join_lines [ u "[" ++ first ++ u "]"; line; u "[" ++ second ++ u "]";
                     u "[/" ++ closed ++ u "]" ])
       app_inputs
     = (if PyStr.eqb second closed
        then flush_block [] (Some second) [line] (determine_list_type line)
        else flush_block [] None [line] None)
  /\ forall tag lt,
       exists ty lt',
         flush_block [] tag [line] lt = [Build_element ty [line] tag lt'].
Proof.
  intros Hfirst Hsecond Hclosed Hone Hcontent.
  destruct (tag_line_facts Hfirst) as (S1 & _ & O1 & _).
  destruct (tag_line_facts Hsecond) as (S2 & _ & O2 & _).
  destruct (tag_line_facts Hclosed) as (_ & _ & _ & Oc).
  assert (Hne : nonempty (strip line) = true).
  { unfold is_content_line in Hcontent. cbv zeta in Hcontent.
    apply andb_true_iff in Hcontent as [_ H]. exact H. }
  assert (Hl : nonempty line = true).
  { destruct line; [discriminate | reflexivity]. }
  assert (E1 : step initial_state (u "[" ++ first ++ u "]")
               = Build_parser_state [] (Some first) [] None).
  { rewrite (step_open_tag initial_state _ Hfirst S1). reflexivity. }
  assert (E2 : forall tag,
             step (Build_parser_state [] tag [] None) line
             = Build_parser_state [] tag [line] (determine_list_type line)).
  { intros tag. apply step_content_line; [exact Hcontent | reflexivity..]. }
  assert (E3 : step (Build_parser_state [] (Some first) [line]
                       (determine_list_type line))
                 (u "[" ++ second ++ u "]")
               = Build_parser_state [] (Some second) [line]
                   (determine_list_type line)).
  { rewrite (step_open_tag _ _ Hsecond S2). reflexivity. }
  repeat split.
  - unfold preprocess_precedent. rewrite splitlines_join.
    2:{ cbn [forallb]. rewrite O2, Hone, Hl. reflexivity. }
    cbn [fold_left]. fold initial_state.
    change initial_state with (Build_parser_state [] None [] None).
    rewrite E2, (step_open_tag _ _ Hsecond S2). reflexivity.
  - unfold preprocess_precedent. rewrite splitlines_join.
    2:{ cbn [forallb]. rewrite O1, O2, Hone, Hl. reflexivity. }
    cbn [fold_left]. rewrite E1, E2, E3. reflexivity.
  - unfold preprocess_precedent. rewrite splitlines_join.
    2:{ cbn [forallb]. rewrite O1, O2, Oc, Hone, Hl. reflexivity. }
    cbn [fold_left]. rewrite E1, E2, E3, (step_close_tag _ Hclosed).
    cbn [block_lines current_block_tag logical_elements current_list_type
         nonempty andb tag_is].
    destruct (PyStr.eqb second closed); reflexivity.
  - intros tag lt. apply flush_block_single. exact Hne.
Qed.

Lemma open_tag_after_line_witness :
  preprocess_precedent
    (join_lines [ u "[" ++ u "a1" ++ u "]"; u "For assigned claims";
                  u "[" ++ u "corp" ++ u "]" ]) []
  = [ Build_element general_paragraph [u "For assigned claims"]
        (Some (u "corp")) None ]
  /\ preprocess_precedent
       (join_lines [ u "[" ++ u "a1" ++ u "]"; u "For assigned claims";
                     u "[" ++ u "corp" ++ u "]";
                     u "[/" ++ u "indiv" ++ u "]" ]) []
     = [ Build_element general_paragraph [u "For assigned claims"] None None ].
Proof.
  destruct (@open_tag_after_line (u "a1") (u "corp") (u "indiv")
              (u "For assigned claims") []
              (or_intror (or_intror (or_introl eq_refl)))
              (or_intror (or_introl eq_refl))
              (or_introl eq_refl) eq_refl eq_refl)
    as (_ & H2 & H3 & _).
  split; [rewrite H2 | rewrite H3]; vm_compute; reflexivity.
Defined.
